(** * vcsstate: the git back ends, embedded and verified

    The Go package drives the [git] binary as a subprocess and parses what it
    prints.  The subprocess is the only effect, so it is modelled as a
    function from the command that is built to what the process printed and
    how it exited; every operation takes that function as its first argument.

    Go strings and byte slices are both sequences of bytes: they are [string]
    here, whose characters are 8-bit [ascii] values.  A Go function that can
    panic at run time (index or slice out of range) returns in the [go] type
    below, so that a panic is an outcome that theorems can talk about. *)

From Stdlib Require Import List Arith Bool Lia ZArith DecimalString Ascii String.
Import ListNotations.
Open Scope list_scope.
Open Scope string_scope.
Open Scope nat_scope.

(** ** Go run time: panics *)

Inductive panic : Type :=
| IndexOutOfRange (i len : nat)
| SliceOutOfRange (i len : nat).

Inductive go (A : Type) : Type :=
| Returns (a : A)
| Panics (p : panic).

Arguments Returns {A} a.
Arguments Panics {A} p.

Definition bind {A B : Type} (m : go A) (k : A -> go B) : go B :=
  match m with
  | Returns a => k a
  | Panics p => Panics p
  end.

Notation "x <- m ;; k" := (bind m (fun x => k))
  (at level 61, m at next level, right associativity).

Definition returned {A : Type} (m : go A) : bool :=
  match m with Returns _ => true | Panics _ => false end.

(** ** Bytes and strings *)

Definition LF : ascii := "010"%char.
Definition TAB : ascii := "009"%char.
Definition nl : string := String LF "".
Definition tab : string := String TAB "".

(** [take n s] and [drop n s] are the two halves of [s] at byte [n]; the Go
    slice expressions that can panic are built from them below. *)
Fixpoint take (n : nat) (s : string) : string :=
  match n, s with
  | S n', String c s' => String c (take n' s')
  | _, _ => ""
  end.

Fixpoint drop (n : nat) (s : string) : string :=
  match n, s with
  | S n', String _ s' => drop n' s'
  | _, _ => s
  end.

(** [s[i:]] *)
Definition slice_from (s : string) (i : nat) : go string :=
  if i <=? length s then Returns (drop i s)
  else Panics (SliceOutOfRange i (length s)).

(** [s[:j]] *)
Definition slice_to (s : string) (j : nat) : go string :=
  if j <=? length s then Returns (take j s)
  else Panics (SliceOutOfRange j (length s)).

(** [s[i:j]] *)
Definition slice (s : string) (i j : nat) : go string :=
  if j <=? length s then
    if i <=? j then Returns (take (j - i) (drop i s))
    else Panics (SliceOutOfRange i j)
  else Panics (SliceOutOfRange j (length s)).

(** [l[i]] *)
Definition index {A : Type} (l : list A) (i : nat) : go A :=
  match nth_error l i with
  | Some a => Returns a
  | None => Panics (IndexOutOfRange i (List.length l))
  end.

(** Package [strings] and [bytes], at the instances the code calls. *)

Fixpoint HasPrefix (s p : string) {struct p} : bool :=
  match p, s with
  | "", _ => true
  | String a p', String b s' => Ascii.eqb a b && HasPrefix s' p'
  | String _ _, "" => false
  end.

Definition HasSuffix (s suffix : string) : bool :=
  (length suffix <=? length s) &&
  String.eqb (drop (length s - length suffix) s) suffix.

Definition TrimSuffix (s suffix : string) : string :=
  if HasSuffix s suffix then take (length s - length suffix) s else s.

(** [cut s sep] splits [s] around the first byte [sep], if there is one. *)
Fixpoint cut (s : string) (sep : ascii) : option (string * string) :=
  match s with
  | "" => None
  | String c s' =>
      if Ascii.eqb c sep then Some ("", s')
      else match cut s' sep with
           | Some (a, b) => Some (String c a, b)
           | None => None
           end
  end.

(** [strings.Split(s, sep)] for a separator of one byte, which is what every
    call in the package passes: all the pieces between separators; a string
    without separator (the empty one too) is one piece. *)
Fixpoint Split (s : string) (sep : ascii) : list string :=
  match s with
  | "" => [""]
  | String c s' =>
      if Ascii.eqb c sep then "" :: Split s' sep
      else match Split s' sep with
           | piece :: rest => String c piece :: rest
           | [] => [String c ""]
           end
  end.

(** [strings.SplitN(s, sep, n)] for [n >= 0] and a separator of one byte: at
    most [n] pieces, the last one being the unsplit rest. *)
Fixpoint SplitN (s : string) (sep : ascii) (n : nat) : list string :=
  match n with
  | 0 => []
  | 1 => [s]
  | S n' =>
      match cut s sep with
      | Some (a, b) => a :: SplitN b sep n'
      | None => [s]
      end
  end.

(** [bytes.Index] and [bytes.IndexByte]: position of the first occurrence,
    [-1] when there is none. *)
Fixpoint Index (s sub : string) : Z :=
  if HasPrefix s sub then 0%Z
  else match s with
       | "" => (-1)%Z
       | String _ s' =>
           let i := Index s' sub in
           if (i =? -1)%Z then (-1)%Z else (i + 1)%Z
       end.

Fixpoint IndexByte (s : string) (c : ascii) : Z :=
  match s with
  | "" => (-1)%Z
  | String b s' =>
      if Ascii.eqb b c then 0%Z
      else let i := IndexByte s' c in
           if (i =? -1)%Z then (-1)%Z else (i + 1)%Z
  end.

(** [%v] of an [int]. *)
Definition Itoa (n : nat) : string := NilEmpty.string_of_uint (Nat.to_uint n).

(** ** Errors

    [errBranchNotFound] and [ErrNoRemote] are package variables compared by
    identity ([err == errBranchNotFound]); values built by [errors.New] or
    [fmt.Errorf] in a function body are fresh and equal to neither, so each
    source of errors is its own constructor.  [ErrNoRemote] and
    [NotFoundError] are declared in a file of the package that is not among
    the sources; only their identity matters here. *)

(** The error of a run that failed ([*exec.ExitError] and the like); the
    code only ever prints it with [%v]. *)
Record ExitError : Type := { Error : string }.

Inductive error : Type :=
| ErrNoRemote
| errBranchNotFound
| errors_New (text : string)
| fmt_Errorf (text : string)
| NotFoundError (Err : error)
| ExecError (e : ExitError).

(** Go's [(value, err)] results: [err] is [None] for [nil]. *)
Definition nil : option error := None.

(** ** The subprocess *)

Record Cmd : Type := Command {
  Args : list string;            (* argv, "git" first *)
  Dir : string;                  (* working directory, "" when unset *)
  Env : list (string * string)   (* variables set on top of os.Environ() *)
}.

Record Exit : Type := {
  Stdout : string;
  Stderr : string;
  Failure : option ExitError     (* [None] when the run succeeded *)
}.

(** What running a command gives; the binary is outside the program. *)
Definition Tool : Type := Cmd -> Exit.

(** [cmd.Output()] *)
Definition Output (git : Tool) (cmd : Cmd) : string * option ExitError :=
  let r := git cmd in (Stdout r, Failure r).

(** Modelled from the spec: [dividedOutput], a helper of the package that is
    not among the sources; the command runner "captures stdout and stderr
    separately" and returns both with the error of the run. *)
Definition dividedOutput (git : Tool) (cmd : Cmd)
  : string * string * option ExitError :=
  let r := git cmd in (Stdout r, Stderr r, Failure r).

Definition LANG : string * string := ("LANG", "en_US.UTF-8").

(** The environment of the commands that reach the remote. *)
Definition noninteractive : list (string * string) :=
  [LANG; ("GIT_ASKPASS", "true");
   ("GIT_SSH_COMMAND", "ssh -o StrictHostKeyChecking=yes")].

(** [fmt.Errorf("%v: %s", err, strings.TrimSuffix(string(stderr), "\n"))] *)
Definition with_stderr (err : ExitError) (stderr : string) : error :=
  fmt_Errorf (Error err ++ ": " ++ TrimSuffix stderr nl).

(** [gitRevisionLength] is the length of a git revision hash. *)
Definition gitRevisionLength : nat := 40.

(** ** The parsers of the 2.8 strategy *)

(** The body of the loop of [parseGit28LsRemote] over the remaining lines;
    [branch] and [revision] are the named results, which the loop updates. *)
Fixpoint parseGit28LsRemote_lines (lines : list string)
    (branch revision : string) : go (string * string * option error) :=
  match lines with
  | [] =>
      if String.eqb branch "" && negb (String.eqb revision "") then
        Returns ("", revision, Some errBranchNotFound)
      else
        Returns ("", "", Some (errors_New
          "HEAD branch or revision not found in ls-remote output"))
  | line :: lines' =>
      let parts := SplitN line TAB 2 in
      p1 <- index parts 1 ;;
      if negb (String.eqb p1 "HEAD") then
        parseGit28LsRemote_lines lines' branch revision
      else
        p0 <- index parts 0 ;;
        upd <- (if HasPrefix p0 "ref: refs/heads/" then
                  b <- slice_from p0 (length "ref: refs/heads/") ;;
                  Returns (b, revision)
                else Returns (branch, p0)) ;;
        let '(branch, revision) := upd in
        if negb (String.eqb branch "") && negb (String.eqb revision "") then
          Returns (branch, revision, nil)
        else parseGit28LsRemote_lines lines' branch revision
  end.

(** [parseGit28LsRemote] parses the branch and revision from output of
    ls-remote --symref.  It returns [errBranchNotFound] if HEAD branch is not
    found. *)
Definition parseGit28LsRemote (out : string)
  : go (string * string * option error) :=
  if length out =? 0 then
    Returns ("", "", Some (errors_New "empty ls-remote output"))
  else
    body <- slice_to out (length out - 1) ;;
    parseGit28LsRemote_lines (Split body LF) "" "".

Fixpoint guessBranch_lines (lines : list string) (revision branch : string)
  : go (string * option error) :=
  match lines with
  | [] =>
      if String.eqb branch "" then Returns ("", Some errBranchNotFound)
      else Returns (branch, nil)
  | line :: lines' =>
      let revRef := SplitN line TAB 2 in
      rev <- index revRef 0 ;;
      ref <- index revRef 1 ;;
      if negb (String.eqb rev revision) || String.eqb ref "HEAD" then
        guessBranch_lines lines' revision branch
      else if negb (String.eqb branch "master") then
        b <- slice_from ref (length "refs/heads/") ;;
        guessBranch_lines lines' revision b
      else guessBranch_lines lines' revision branch
  end.

(** [guessBranch] makes a best effort guess of determining HEAD branch from
    output of ls-remote where --symref option wasn't supported. *)
Definition guessBranch (out : string) (revision : string)
  : go (string * option error) :=
  if length out =? 0 then
    Returns ("", Some (errors_New "empty ls-remote output"))
  else
    body <- slice_to out (length out - 1) ;;
    guessBranch_lines (Split body LF) revision "".

(** ** The parsers of the 1.7 strategy *)

Fixpoint parseGit17Remote_lines (lines : list string)
  : go (string * option error) :=
  match lines with
  | [] => Returns ("", Some (errors_New "no origin remote"))
  | line :: lines' =>
      let nameURLKind := Split line TAB in
      name <- index nameURLKind 0 ;;
      urlKind <- index nameURLKind 1 ;;
      if negb (String.eqb name "origin") then parseGit17Remote_lines lines'
      else if negb (HasSuffix urlKind " (fetch)") then
        parseGit17Remote_lines lines'
      else
        url <- slice_to urlKind (length urlKind - length " (fetch)") ;;
        Returns (url, nil)
  end.

(** [parseGit17Remote] parses the fetch URL for "origin" remote, if it
    exists. *)
Definition parseGit17Remote (out : string) : go (string * option error) :=
  if length out =? 0 then Returns ("", Some (errors_New "no origin remote"))
  else
    body <- slice_to out (length out - 1) ;;
    parseGit17Remote_lines (Split body LF).

Fixpoint parseGit17LsRemote_lines (lines : list string)
    (branch revision : string) : go (string * string * option error) :=
  match lines with
  | [] =>
      if String.eqb branch "" || String.eqb revision "" then
        Returns ("", "", Some (errors_New
          "HEAD branch or revision not found in ls-remote output"))
      else Returns (branch, revision, nil)
  | line :: lines' =>
      let revisionReference := Split line TAB in
      rev <- index revisionReference 0 ;;
      ref <- index revisionReference 1 ;;
      if String.eqb ref "HEAD" then
        parseGit17LsRemote_lines lines' branch rev
      else if String.eqb rev revision && negb (String.eqb branch "master") then
        b <- slice_from ref (length "refs/heads/") ;;
        parseGit17LsRemote_lines lines' b revision
      else parseGit17LsRemote_lines lines' branch revision
  end.

(** [parseGit17LsRemote] parses the branch and revision from output of
    ls-remote (without --symref option). *)
Definition parseGit17LsRemote (out : string)
  : go (string * string * option error) :=
  if length out =? 0 then
    Returns ("", "", Some (errors_New "empty ls-remote output"))
  else
    body <- slice_to out (length out - 1) ;;
    parseGit17LsRemote_lines (Split body LF) "" "".

(** ** Strategy [git28]: git version 2.8+ *)

Module git28.

Definition Status (git : Tool) (dir : string) : string * option error :=
  let cmd := Command ["git"; "status"; "--porcelain"] dir [LANG] in
  let '(out, err) := Output git cmd in
  match err with
  | Some e => ("", Some (ExecError e))
  | None => (out, nil)
  end.

Definition Branch (git : Tool) (dir : string) : string * option error :=
  let cmd := Command ["git"; "rev-parse"; "--abbrev-ref"; "HEAD"] dir [LANG] in
  let '(out, err) := Output git cmd in
  match err with
  | Some e => ("", Some (ExecError e))
  | None => (TrimSuffix out nl, nil)
  end.

Definition Stash (git : Tool) (dir : string) : string * option error :=
  let cmd := Command ["git"; "stash"; "list"] dir [LANG] in
  let '(out, err) := Output git cmd in
  match err with
  | Some e => ("", Some (ExecError e))
  | None => (out, nil)
  end.

Definition CachedRemoteDefaultBranch : string * option error :=
  ("", Some (fmt_Errorf
     "not yet implemented for git, fall back to NoRemoteDefaultBranch")).

Definition NoRemoteDefaultBranch : string := "master".

Definition LocalRevision (git : Tool) (dir defaultBranch : string)
  : go (string * option error) :=
  let cmd := Command ["git"; "rev-parse"; defaultBranch] dir [LANG] in
  let '(out, err) := Output git cmd in
  match err with
  | Some e => Returns ("", Some (ExecError e))
  | None =>
      if length out <? gitRevisionLength then
        Returns ("", Some (fmt_Errorf
          ("output length " ++ Itoa (length out) ++ " is shorter than "
             ++ Itoa gitRevisionLength)))
      else
        rev <- slice_to out gitRevisionLength ;;
        Returns (rev, nil)
  end.

Definition Contains (git : Tool) (dir revision defaultBranch : string)
  : bool * option error :=
  let cmd := Command ["git"; "for-each-ref"; "--format=contains"; "--count=1";
                      "--contains"; revision; "refs/heads/" ++ defaultBranch]
                     dir [LANG] in
  let '(stdout, stderr, err) := dividedOutput git cmd in
  match err with
  | None => (String.eqb stdout ("contains" ++ nl), nil)
  | Some e =>
      if HasPrefix stderr ("error: no such commit " ++ revision ++ nl) then
        (false, nil)
      else (false, Some (ExecError e))
  end.

Definition RemoteContains (git : Tool) (dir revision defaultBranch : string)
  : bool * option error :=
  let cmd := Command ["git"; "for-each-ref"; "--format=contains"; "--count=1";
                      "--contains"; revision;
                      "refs/remotes/origin/" ++ defaultBranch]
                     dir [LANG] in
  let '(stdout, stderr, err) := dividedOutput git cmd in
  match err with
  | None => (String.eqb stdout ("contains" ++ nl), nil)
  | Some e =>
      if HasPrefix stderr ("error: no such commit " ++ revision ++ nl) then
        (false, nil)
      else (false, Some (ExecError e))
  end.

Definition RemoteURL (git : Tool) (dir : string) : string * option error :=
  let cmd := Command ["git"; "remote"; "get-url"; "origin"] dir [LANG] in
  let '(stdout, stderr, err) := dividedOutput git cmd in
  match err with
  | Some e =>
      if String.eqb stderr ("fatal: No such remote 'origin'" ++ nl) then
        ("", Some ErrNoRemote)
      else ("", Some (ExecError e))
  | None => (TrimSuffix stdout nl, nil)
  end.

(** [remoteBranch] is still needed to reliably get remote default branch when
    git server doesn't support --symref option of ls-remote. *)
Definition remoteBranch (git : Tool) (dir : string)
  : go (string * option error) :=
  let cmd := Command ["git"; "remote"; "show"; "origin"] dir noninteractive in
  let '(stdout, stderr, err) := dividedOutput git cmd in
  match err with
  | Some e => Returns ("", Some (with_stderr e stderr))
  | None =>
      let s := nl ++ "  HEAD branch: " in
      let i := Index stdout s in
      if (i =? -1)%Z then Returns ("", Some (errors_New "no HEAD branch"))
      else
        let i := (i + Z.of_nat (length s))%Z in
        rest <- slice_from stdout (Z.to_nat i) ;;
        let n := IndexByte rest LF in
        let n := if (n =? -1)%Z then Z.of_nat (length stdout)
                 else (n + i)%Z in
        b <- slice stdout (Z.to_nat i) (Z.to_nat n) ;;
        Returns (b, nil)
  end.

Definition RemoteBranchAndRevision (git : Tool) (dir : string)
  : go (string * string * option error) :=
  let cmd := Command ["git"; "ls-remote"; "--symref"; "origin"; "HEAD";
                      "refs/heads/*"] dir noninteractive in
  let '(stdout, stderr, err) := dividedOutput git cmd in
  match err with
  | Some e =>
      if HasPrefix stderr
           ("fatal: 'origin' does not appear to be a git repository" ++ nl)
      then Returns ("", "", Some ErrNoRemote)
      else if HasPrefix stderr ("remote: Repository not found." ++ nl)
      then Returns ("", "", Some (NotFoundError (with_stderr e stderr)))
      else Returns ("", "", Some (with_stderr e stderr))
  | None =>
      parsed <- parseGit28LsRemote stdout ;;
      let '(branch, revision, err) := parsed in
      match err with
      | Some errBranchNotFound =>
          (* Some git servers doesn't support --symref option of ls-remote,
             so we need to fall back. *)
          fallback <- remoteBranch git dir ;;
          let '(branch, err) := fallback in
          match err with
          | Some e => Returns ("", "", Some e)
          | None => Returns (branch, revision, nil)
          end
      | Some e => Returns ("", "", Some e)
      | None => Returns (branch, revision, nil)
      end
  end.

End git28.

Module remoteGit28.

Definition RemoteBranchAndRevision (git : Tool) (remoteURL : string)
  : go (string * string * option error) :=
  let cmd := Command ["git"; "ls-remote"; "--symref"; remoteURL; "HEAD";
                      "refs/heads/*"] "" noninteractive in
  let '(stdout, stderr, err) := dividedOutput git cmd in
  match err with
  | Some e =>
      if HasPrefix stderr ("remote: Repository not found." ++ nl)
      then Returns ("", "", Some (NotFoundError (with_stderr e stderr)))
      else Returns ("", "", Some (with_stderr e stderr))
  | None =>
      parsed <- parseGit28LsRemote stdout ;;
      let '(branch, revision, err) := parsed in
      match err with
      | Some errBranchNotFound =>
          (* Use guessBranch for now. *)
          fallback <- guessBranch stdout revision ;;
          let '(branch, err) := fallback in
          match err with
          | Some e => Returns ("", "", Some e)
          | None => Returns (branch, revision, nil)
          end
      | Some e => Returns ("", "", Some e)
      | None => Returns (branch, revision, nil)
      end
  end.

End remoteGit28.

(** ** Strategy [git17]: git version 1.7+ *)

Module git17.

Definition Status (git : Tool) (dir : string) : string * option error :=
  let cmd := Command ["git"; "status"; "--porcelain"] dir [LANG] in
  let '(out, err) := Output git cmd in
  match err with
  | Some e => ("", Some (ExecError e))
  | None => (out, nil)
  end.

Definition Branch (git : Tool) (dir : string) : string * option error :=
  let cmd := Command ["git"; "rev-parse"; "--abbrev-ref"; "HEAD"] dir [LANG] in
  let '(out, err) := Output git cmd in
  match err with
  | Some e => ("", Some (ExecError e))
  | None => (TrimSuffix out nl, nil)
  end.

Definition Stash (git : Tool) (dir : string) : string * option error :=
  let cmd := Command ["git"; "stash"; "list"] dir [LANG] in
  let '(out, err) := Output git cmd in
  match err with
  | Some e => ("", Some (ExecError e))
  | None => (out, nil)
  end.

Definition CachedRemoteDefaultBranch : string * option error :=
  ("", Some (fmt_Errorf
     "not yet implemented for git, fall back to NoRemoteDefaultBranch")).

Definition NoRemoteDefaultBranch : string := "master".

Definition LocalRevision (git : Tool) (dir defaultBranch : string)
  : go (string * option error) :=
  let cmd := Command ["git"; "rev-parse"; defaultBranch] dir [LANG] in
  let '(out, err) := Output git cmd in
  match err with
  | Some e => Returns ("", Some (ExecError e))
  | None =>
      if length out <? gitRevisionLength then
        Returns ("", Some (fmt_Errorf
          ("output length " ++ Itoa (length out) ++ " is shorter than "
             ++ Itoa gitRevisionLength)))
      else
        rev <- slice_to out gitRevisionLength ;;
        Returns (rev, nil)
  end.

Definition Contains (git : Tool) (dir revision defaultBranch : string)
  : bool * option error :=
  let cmd := Command ["git"; "branch"; "--contains"; revision; defaultBranch]
                     dir [LANG] in
  let '(stdout, stderr, err) := dividedOutput git cmd in
  match err with
  | None =>
      (String.eqb stdout ("* " ++ defaultBranch ++ nl)
       || String.eqb stdout ("  " ++ defaultBranch ++ nl), nil)
  | Some e =>
      if HasPrefix stderr ("error: no such commit " ++ revision ++ nl) then
        (false, nil)
      else (false, Some (ExecError e))
  end.

Definition RemoteContains (git : Tool) (dir revision defaultBranch : string)
  : bool * option error :=
  let cmd := Command ["git"; "branch"; "-r"; "--contains"; revision;
                      "origin/" ++ defaultBranch] dir [LANG] in
  let '(stdout, stderr, err) := dividedOutput git cmd in
  match err with
  | None => (String.eqb stdout ("  origin/" ++ defaultBranch ++ nl), nil)
  | Some e =>
      if HasPrefix stderr ("error: no such commit " ++ revision ++ nl) then
        (false, nil)
      else (false, Some (ExecError e))
  end.

Definition RemoteURL (git : Tool) (dir : string)
  : go (string * option error) :=
  let cmd := Command ["git"; "remote"; "-v"] dir [LANG] in
  let '(out, err) := Output git cmd in
  match err with
  | Some e => Returns ("", Some (ExecError e))
  | None =>
      parsed <- parseGit17Remote out ;;
      let '(url, err) := parsed in
      match err with
      | Some _ => Returns ("", Some ErrNoRemote)
      | None => Returns (url, nil)
      end
  end.

(** [remoteBranch] is needed to reliably get remote default branch until git
    2.8 becomes commonly available. *)
Definition remoteBranch (git : Tool) (dir : string)
  : go (string * option error) :=
  let cmd := Command ["git"; "remote"; "show"; "origin"] dir noninteractive in
  let '(stdout, stderr, err) := dividedOutput git cmd in
  match err with
  | Some e => Returns ("", Some (with_stderr e stderr))
  | None =>
      let s := nl ++ "  HEAD branch: " in
      let i := Index stdout s in
      if (i =? -1)%Z then Returns ("", Some (errors_New "no HEAD branch"))
      else
        let i := (i + Z.of_nat (length s))%Z in
        rest <- slice_from stdout (Z.to_nat i) ;;
        let n := IndexByte rest LF in
        let n := if (n =? -1)%Z then Z.of_nat (length stdout)
                 else (n + i)%Z in
        b <- slice stdout (Z.to_nat i) (Z.to_nat n) ;;
        Returns (b, nil)
  end.

Definition RemoteBranchAndRevision (git : Tool) (dir : string)
  : go (string * string * option error) :=
  let cmd := Command ["git"; "ls-remote"; "origin"; "HEAD"; "refs/heads/*"]
                     dir noninteractive in
  let '(stdout, stderr, err) := dividedOutput git cmd in
  match err with
  | Some e =>
      if HasPrefix stderr
           ("fatal: 'origin' does not appear to be a git repository" ++ nl)
      then Returns ("", "", Some ErrNoRemote)
      else Returns ("", "", Some (with_stderr e stderr))
  | None =>
      parsed <- parseGit17LsRemote stdout ;;
      let '(_, revision, err) := parsed in
      match err with
      | Some e => Returns ("", "", Some e)
      | None =>
          found <- remoteBranch git dir ;;
          let '(branch, err) := found in
          match err with
          | Some e => Returns ("", "", Some e)
          | None => Returns (branch, revision, nil)
          end
      end
  end.

End git17.

Module remoteGit17.

Definition RemoteBranchAndRevision (git : Tool) (remoteURL : string)
  : go (string * string * option error) :=
  let cmd := Command ["git"; "ls-remote"; remoteURL; "HEAD"; "refs/heads/*"]
                     "" noninteractive in
  let '(stdout, stderr, err) := dividedOutput git cmd in
  match err with
  | Some e => Returns ("", "", Some (with_stderr e stderr))
  | None => parseGit17LsRemote stdout
  end.

End remoteGit17.

(** ** Package [vcs] (git.go): the older entry point, without errors *)

Module vcs.

Definition CheckGitRepoLocal (git : Tool) (path branch : string) : go string :=
  let cmd := Command ["git"; "rev-parse"; branch] path [] in
  let '(out, err) := Output git cmd in
  match err with
  | None =>
      if gitRevisionLength <=? length out then slice_to out gitRevisionLength
      else Returns ""
  | Some _ => Returns ""
  end.

Definition CheckGitRepoRemote (git : Tool) (path branch : string) : go string :=
  let cmd := Command ["git"; "ls-remote"; "--heads"; "origin"; branch] path []
  in
  let '(out, err) := Output git cmd in
  match err with
  | None =>
      if gitRevisionLength <=? length out then slice_to out gitRevisionLength
      else Returns ""
  | Some _ => Returns ""
  end.

Definition IsFolderGitRepo (git : Tool) (path : string) : bool * string :=
  let cmd := Command ["git"; "status"; "--porcelain"] path [] in
  let '(out, err) := Output git cmd in
  match err with
  | None => (true, out)
  | Some _ => (false, "")
  end.

(** [TrimLastNewline] comes from an imported package that is not part of the
    repository; the two functions that call it take it as a parameter. *)
Definition GetGitRepoRoot (TrimLastNewline : string -> string)
    (git : Tool) (path : string) : bool * string :=
  let cmd := Command ["git"; "rev-parse"; "--show-toplevel"] path [] in
  let '(out, err) := Output git cmd in
  match err with
  | None => (true, TrimLastNewline out)
  | Some _ => (false, "")
  end.

Definition CheckGitRepoLocalBranch (TrimLastNewline : string -> string)
    (git : Tool) (path : string) : string :=
  let cmd := Command ["git"; "rev-parse"; "--abbrev-ref"; "HEAD"] path [] in
  let '(out, err) := Output git cmd in
  match err with
  | None => TrimLastNewline out
  | Some _ => ""
  end.

(** [gitVcs] embeds [commonVcs], of which only [rootPath] is used. *)
Record gitVcs : Type := { rootPath : string }.

Definition GetStatus (git : Tool) (this : gitVcs) : string :=
  snd (IsFolderGitRepo git (rootPath this)).

Definition GetDefaultBranch (this : gitVcs) : string := "master".

Definition GetLocalBranch (TrimLastNewline : string -> string)
    (git : Tool) (this : gitVcs) : string :=
  CheckGitRepoLocalBranch TrimLastNewline git (rootPath this).

Definition GetLocalRev (git : Tool) (this : gitVcs) : go string :=
  CheckGitRepoLocal git (rootPath this) (GetDefaultBranch this).

Definition GetRemoteRev (git : Tool) (this : gitVcs) : go string :=
  CheckGitRepoRemote git (rootPath this) (GetDefaultBranch this).

End vcs.

(** ** Vocabulary of the statements *)

Fixpoint has_byte (c : ascii) (s : string) : bool :=
  match s with
  | "" => false
  | String b s' => Ascii.eqb b c || has_byte c s'
  end.

(** A field of a line: no tab and no line feed in it. *)
Definition field (s : string) : bool :=
  negb (has_byte TAB s) && negb (has_byte LF s).

(** The text whose lines are [ls], each one ended by a line feed. *)
Fixpoint unlines (ls : list string) : string :=
  match ls with
  | [] => ""
  | l :: ls' => l ++ nl ++ unlines ls'
  end.

(** The lines that every parser loops over: the input without its last
    byte, split at line feeds. *)
Definition lines (out : string) : list string :=
  Split (take (length out - 1) out) LF.

(** A line of [git ls-remote]: a revision, a tab, a reference. *)
Definition ref_line (e : string * string) : string :=
  fst e ++ tab ++ snd e.

Definition branch_ref (e : string * string) : string * string :=
  (fst e, "refs/heads/" ++ snd e).

(** The output of [git ls-remote origin HEAD refs/heads/*]: the line of HEAD,
    then one line per branch, given as (revision, branch name). *)
Definition ls_remote (revision : string) (branches : list (string * string))
  : string :=
  unlines (map ref_line ((revision, "HEAD") :: map branch_ref branches)).

(** A line of [git remote -v]: name, tab, URL and kind. *)
Definition remote_line (e : string * string) : string :=
  fst e ++ tab ++ snd e.

Definition isHexDigit (c : ascii) : bool :=
  let n := nat_of_ascii c in
  ((48 <=? n) && (n <=? 57)) || ((97 <=? n) && (n <=? 102))
  || ((65 <=? n) && (n <=? 70)).

Fixpoint allHex (s : string) : bool :=
  match s with
  | "" => true
  | String c s' => isHexDigit c && allHex s'
  end.

(** The commands that the operations run, as they build them. *)
Definition rev_parse (dir defaultBranch : string) : Cmd :=
  Command ["git"; "rev-parse"; defaultBranch] dir [LANG].

Definition for_each_ref (dir revision ref : string) : Cmd :=
  Command ["git"; "for-each-ref"; "--format=contains"; "--count=1";
           "--contains"; revision; ref] dir [LANG].

Definition branch_contains (dir revision defaultBranch : string) : Cmd :=
  Command ["git"; "branch"; "--contains"; revision; defaultBranch] dir [LANG].

Definition branch_r_contains (dir revision defaultBranch : string) : Cmd :=
  Command ["git"; "branch"; "-r"; "--contains"; revision;
           "origin/" ++ defaultBranch] dir [LANG].

Definition remote_get_url (dir : string) : Cmd :=
  Command ["git"; "remote"; "get-url"; "origin"] dir [LANG].

Definition remote_v (dir : string) : Cmd :=
  Command ["git"; "remote"; "-v"] dir [LANG].

Definition ls_remote_symref (dir remote : string) : Cmd :=
  Command ["git"; "ls-remote"; "--symref"; remote; "HEAD"; "refs/heads/*"]
          dir noninteractive.

Definition ls_remote_plain (dir remote : string) : Cmd :=
  Command ["git"; "ls-remote"; remote; "HEAD"; "refs/heads/*"]
          dir noninteractive.

(** The messages of git that the code looks for. *)
Definition no_such_commit (revision : string) : string :=
  "error: no such commit " ++ revision ++ nl.


Definition not_a_repository : string :=
  "fatal: 'origin' does not appear to be a git repository" ++ nl.

(** Tools for the examples: one that prints and succeeds, one that fails. *)
Definition prints (stdout : string) : Tool :=
  fun _ => {| Stdout := stdout; Stderr := ""; Failure := None |}.

Definition fails (stderr : string) : Tool :=
  fun _ => {| Stdout := ""; Stderr := stderr;
              Failure := Some {| Error := "exit status 128" |} |}.

(** A tool that answers [git ls-remote ...] with [listing] and fails with
    [stderr] on every other command. *)
Definition lists_only (listing stderr : string) : Tool :=
  fun cmd =>
    if String.eqb (nth 1 (Args cmd) "") "ls-remote" then prints listing cmd
    else fails stderr cmd.

(** A tool that answers [git ls-remote ...] with [listing] and every other
    command with [summary]. *)
Definition lists_and_shows (listing summary : string) : Tool :=
  fun cmd =>
    if String.eqb (nth 1 (Args cmd) "") "ls-remote" then prints listing cmd
    else prints summary cmd.

(** What [LocalRevision] computes from the exit of [git rev-parse], once
    the slice [out[:gitRevisionLength]] is known to be in range; the two
    strategies are proved equal to it below. *)
Definition LocalRevision_result (r : Exit) : go (string * option error) :=
  match Failure r with
  | Some e => Returns ("", Some (ExecError e))
  | None =>
      if length (Stdout r) <? gitRevisionLength then
        Returns ("", Some (fmt_Errorf
          ("output length " ++ Itoa (length (Stdout r)) ++ " is shorter than "
             ++ Itoa gitRevisionLength)))
      else Returns (take gitRevisionLength (Stdout r), nil)
  end.

(** A containment check [answer]s the question [P]: true without error when
    [P] holds, false without error when it does not. *)
Definition answers (answer : bool * option error) (P : Prop) : Prop :=
  (P -> answer = (true, nil)) /\ (~ P -> answer = (false, nil)).

(** What the loops of [guessBranch] and [parseGit17LsRemote] leave in
    [branch] after the branch lines, given as (revision, branch name), when
    they start from [branch]; proved of both loops below. *)
Definition keep_or_take (revision : string) (branch : string)
    (e : string * string) : string :=
  if String.eqb (fst e) revision && negb (String.eqb branch "master")
  then snd e else branch.

Definition pick (revision : string) (branches : list (string * string))
    (branch : string) : string :=
  fold_left (keep_or_take revision) branches branch.

(** A line of a listing with its two fields: a revision without tab, a tab,
    and a reference without tab that is HEAD or has at least the eleven bytes
    of "refs/heads/". *)
Definition ref_shaped (line : string) : Prop :=
  exists rev ref,
    line = rev ++ tab ++ ref /\
    has_byte TAB rev = false /\ has_byte TAB ref = false /\
    (ref = "HEAD" \/ length "refs/heads/" <= length ref).

(** The line that [remoteBranch] looks for in the summary of [git remote
    show origin]. *)
Definition HEAD_branch_marker : string := nl ++ "  HEAD branch: ".

(** The first line of [git ls-remote --symref]: the branch that HEAD points
    to. *)
Definition symref_line (name : string) : string :=
  ref_line ("ref: refs/heads/" ++ name, "HEAD").

Definition not_found : string := "remote: Repository not found." ++ nl.

(** The commands of the operations that have no claim. *)
Definition abbrev_ref (dir : string) : Cmd :=
  Command ["git"; "rev-parse"; "--abbrev-ref"; "HEAD"] dir [LANG].

Definition remote_show (dir : string) : Cmd :=
  Command ["git"; "remote"; "show"; "origin"] dir noninteractive.

Definition ls_remote_heads (path branch : string) : Cmd :=
  Command ["git"; "ls-remote"; "--heads"; "origin"; branch] path [].

(** A tool that answers each command by its second argument: [rev-parse],
    [ls-remote], and anything else. *)
Definition answers_by_verb (rev_parsed listed other : string) : Tool :=
  fun cmd =>
    let verb := nth 1 (Args cmd) "" in
    if String.eqb verb "rev-parse" then prints rev_parsed cmd
    else if String.eqb verb "ls-remote" then prints listed cmd
    else prints other cmd.

Definition vcs_rev_parse (path branch : string) : Cmd :=
  Command ["git"; "rev-parse"; branch] path [].

(** * Theorems *)

(** ** Strings *)

Lemma length_app (a b : string) : length (a ++ b) = length a + length b.
Proof. induction a as [|c a IH]; simpl; [reflexivity | now rewrite IH]. Qed.

Lemma length_take (n : nat) (s : string) :
  n <= length s -> length (take n s) = n.
Proof.
  revert s; induction n as [|n IH]; intros [|c s] H; simpl in *;
    try reflexivity; try lia.
  rewrite IH; [reflexivity | lia].
Qed.

Lemma take_app (a b : string) (n : nat) :
  take (length a + n) (a ++ b) = a ++ take n b.
Proof. induction a as [|c a IH]; simpl; [reflexivity | now rewrite IH]. Qed.

Lemma app_empty_r (a : string) : a ++ "" = a.
Proof. induction a as [|c a IH]; simpl; [reflexivity | now rewrite IH]. Qed.

Lemma take_pred_app (a b : string) :
  1 <= length b ->
  take (length (a ++ b) - 1) (a ++ b) = a ++ take (length b - 1) b.
Proof.
  intros H. rewrite length_app.
  replace (length a + length b - 1) with (length a + (length b - 1)) by lia.
  apply take_app.
Qed.

Lemma drop_app (a b : string) : drop (length a) (a ++ b) = b.
Proof. induction a as [|c a IH]; simpl; [now destruct b | exact IH]. Qed.

Lemma HasPrefix_app (p s : string) : HasPrefix (p ++ s) p = true.
Proof.
  induction p as [|c p IH]; simpl; [reflexivity|].
  now rewrite Ascii.eqb_refl, IH.
Qed.

Lemma HasPrefix_refl (s : string) : HasPrefix s s = true.
Proof.
  induction s as [|c s IH]; simpl; [reflexivity|].
  now rewrite Ascii.eqb_refl, IH.
Qed.

Lemma HasPrefix_length (s p : string) :
  HasPrefix s p = true -> length p <= length s.
Proof.
  revert s; induction p as [|c p IH]; intros [|b s] H; simpl in *;
    try lia; try discriminate.
  apply andb_true_iff in H as [_ H]. apply IH in H. lia.
Qed.

Lemma has_byte_app (c : ascii) (a b : string) :
  has_byte c (a ++ b) = has_byte c a || has_byte c b.
Proof.
  induction a as [|x a IH]; simpl; [reflexivity|].
  now rewrite IH, orb_assoc.
Qed.

Lemma cut_app_sep (c : ascii) (a b : string) :
  has_byte c a = false -> cut (a ++ String c b) c = Some (a, b).
Proof.
  induction a as [|x a IH]; simpl.
  - intros _. now rewrite Ascii.eqb_refl.
  - intros H. apply orb_false_iff in H as [Hx Ha].
    rewrite Hx, IH by exact Ha. reflexivity.
Qed.

Lemma cut_has_byte (c : ascii) (s : string) :
  has_byte c s = true -> exists a b, cut s c = Some (a, b).
Proof.
  induction s as [|x s IH]; simpl; [discriminate|].
  destruct (Ascii.eqb x c); [eauto|]. simpl. intros H.
  destruct (IH H) as (a & b & ->). eauto.
Qed.

Lemma Split_no_sep (c : ascii) (s : string) :
  has_byte c s = false -> Split s c = [s].
Proof.
  induction s as [|b s IH]; simpl; [reflexivity|].
  intros H. apply orb_false_iff in H as [Hb Hs].
  rewrite Hb, IH by exact Hs. reflexivity.
Qed.

Lemma Split_app_sep (c : ascii) (a b : string) :
  has_byte c a = false ->
  Split (a ++ String c b) c = a :: Split b c.
Proof.
  induction a as [|x a IH]; simpl.
  - intros _. now rewrite Ascii.eqb_refl.
  - intros H. apply orb_false_iff in H as [Hx Ha].
    rewrite Hx, IH by exact Ha. reflexivity.
Qed.

Lemma Split_not_empty (c : ascii) (s : string) :
  exists piece rest, Split s c = piece :: rest.
Proof.
  induction s as [|b s (p & r & IH)]; simpl; [eauto|].
  destruct (Ascii.eqb b c); [eauto|]. rewrite IH. eauto.
Qed.

Lemma Split_has_byte (c : ascii) (s : string) :
  has_byte c s = true -> exists a b rest, Split s c = a :: b :: rest.
Proof.
  induction s as [|x s IH]; simpl; [discriminate|].
  destruct (Ascii.eqb x c); simpl.
  - intros _. destruct (Split_not_empty c s) as (p & r & ->). eauto.
  - intros H. destruct (IH H) as (a & b & rest & ->). eauto.
Qed.

Lemma SplitN_2_line (rev ref : string) :
  has_byte TAB rev = false ->
  SplitN (rev ++ tab ++ ref) TAB 2 = [rev; ref].
Proof.
  intros H. unfold SplitN.
  change (rev ++ tab ++ ref) with (rev ++ String TAB ref).
  now rewrite cut_app_sep.
Qed.

Lemma Split_line (rev ref : string) :
  has_byte TAB rev = false -> has_byte TAB ref = false ->
  Split (rev ++ tab ++ ref) TAB = [rev; ref].
Proof.
  intros Hrev Href.
  change (rev ++ tab ++ ref) with (rev ++ String TAB ref).
  now rewrite Split_app_sep, Split_no_sep.
Qed.

Lemma slice_to_in_range (s : string) (n : nat) :
  n <= length s -> slice_to s n = Returns (take n s).
Proof.
  intros H. unfold slice_to.
  destruct (Nat.leb_spec n (length s)); [reflexivity | lia].
Qed.

Lemma slice_from_in_range (s : string) (n : nat) :
  n <= length s -> slice_from s n = Returns (drop n s).
Proof.
  intros H. unfold slice_from.
  destruct (Nat.leb_spec n (length s)); [reflexivity | lia].
Qed.

Lemma slice_to_pred (out : string) :
  slice_to out (length out - 1) = Returns (take (length out - 1) out).
Proof. apply slice_to_in_range. lia. Qed.

(** ** Lines *)

Lemma field_no_tab (s : string) : field s = true -> has_byte TAB s = false.
Proof.
  unfold field. intros H. apply andb_true_iff in H as [H _].
  now apply negb_true_iff in H.
Qed.

Lemma field_no_LF (s : string) : field s = true -> has_byte LF s = false.
Proof.
  unfold field. intros H. apply andb_true_iff in H as [_ H].
  now apply negb_true_iff in H.
Qed.

Lemma line_no_LF (a b : string) :
  has_byte LF a = false -> has_byte LF b = false ->
  has_byte LF (a ++ tab ++ b) = false.
Proof.
  intros Ha Hb. rewrite !has_byte_app, Ha, Hb. reflexivity.
Qed.

Lemma unlines_length_pos (l : string) (ls : list string) :
  (length (unlines (l :: ls)) =? 0) = false.
Proof.
  apply Nat.eqb_neq. simpl unlines. rewrite !length_app. simpl. lia.
Qed.

(** The lines of a text written line by line are those lines. *)
Lemma lines_unlines (l : string) (ls : list string) :
  Forall (fun l => has_byte LF l = false) (l :: ls) ->
  lines (unlines (l :: ls)) = l :: ls.
Proof.
  unfold lines. revert l. induction ls as [|l' ls IH]; intros l H.
  - inversion H as [|? ? Hl _]; subst.
    change (unlines [l]) with (l ++ nl).
    rewrite take_pred_app by (simpl; lia). simpl take.
    rewrite app_empty_r. now apply Split_no_sep.
  - inversion H as [|? ? Hl Hls]; subst.
    specialize (IH l' Hls).
    change (unlines (l :: l' :: ls)) with (l ++ nl ++ unlines (l' :: ls)).
    assert (1 <= length (unlines (l' :: ls))) as Hpos.
    { simpl unlines. rewrite !length_app. simpl. lia. }
    rewrite take_pred_app by (rewrite length_app; simpl; lia).
    replace (take (length (nl ++ unlines (l' :: ls)) - 1)
                  (nl ++ unlines (l' :: ls)))
      with (String LF (take (length (unlines (l' :: ls)) - 1)
                            (unlines (l' :: ls)))).
    + rewrite Split_app_sep by exact Hl. now rewrite IH.
    + rewrite (take_pred_app nl) by exact Hpos. reflexivity.
Qed.

Lemma parseGit17Remote_eq (out : string) :
  parseGit17Remote out =
  if length out =? 0 then Returns ("", Some (errors_New "no origin remote"))
  else parseGit17Remote_lines (lines out).
Proof. unfold parseGit17Remote. now rewrite slice_to_pred. Qed.

Lemma parseGit17LsRemote_eq (out : string) :
  parseGit17LsRemote out =
  if length out =? 0
  then Returns ("", "", Some (errors_New "empty ls-remote output"))
  else parseGit17LsRemote_lines (lines out) "" "".
Proof. unfold parseGit17LsRemote. now rewrite slice_to_pred. Qed.

Lemma parseGit28LsRemote_eq (out : string) :
  parseGit28LsRemote out =
  if length out =? 0
  then Returns ("", "", Some (errors_New "empty ls-remote output"))
  else parseGit28LsRemote_lines (lines out) "" "".
Proof. unfold parseGit28LsRemote. now rewrite slice_to_pred. Qed.

Lemma guessBranch_eq (out revision : string) :
  guessBranch out revision =
  if length out =? 0
  then Returns ("", Some (errors_New "empty ls-remote output"))
  else guessBranch_lines (lines out) revision "".
Proof. unfold guessBranch. now rewrite slice_to_pred. Qed.

(** ** Local revision *)

Lemma git28_LocalRevision_eq (git : Tool) (dir defaultBranch : string) :
  git28.LocalRevision git dir defaultBranch =
  LocalRevision_result (git (rev_parse dir defaultBranch)).
Proof.
  unfold git28.LocalRevision, LocalRevision_result, Output, rev_parse.
  destruct (Failure _); [reflexivity|].
  destruct (Nat.ltb_spec (length (Stdout (git
    (Command ["git"; "rev-parse"; defaultBranch] dir [LANG]))))
    gitRevisionLength) as [H|H]; [reflexivity|].
  now rewrite slice_to_in_range.
Qed.

Lemma git17_LocalRevision_eq (git : Tool) (dir defaultBranch : string) :
  git17.LocalRevision git dir defaultBranch =
  LocalRevision_result (git (rev_parse dir defaultBranch)).
Proof.
  unfold git17.LocalRevision, LocalRevision_result, Output, rev_parse.
  destruct (Failure _); [reflexivity|].
  destruct (Nat.ltb_spec (length (Stdout (git
    (Command ["git"; "rev-parse"; defaultBranch] dir [LANG]))))
    gitRevisionLength) as [H|H]; [reflexivity|].
  now rewrite slice_to_in_range.
Qed.

Lemma LocalRevision_result_short (r : Exit) :
  length (Stdout r) < gitRevisionLength ->
  exists e, LocalRevision_result r = Returns ("", Some e).
Proof.
  intros H. unfold LocalRevision_result.
  destruct (Failure r); [eauto|].
  destruct (Nat.ltb_spec (length (Stdout r)) gitRevisionLength);
    [eauto | lia].
Qed.

Lemma LocalRevision_result_ok (r : Exit) (rev : string) :
  LocalRevision_result r = Returns (rev, nil) ->
  rev = take gitRevisionLength (Stdout r) /\ length rev = gitRevisionLength.
Proof.
  unfold LocalRevision_result, nil.
  destruct (Failure r); [discriminate|].
  destruct (Nat.ltb_spec (length (Stdout r)) gitRevisionLength) as [H|H];
    [discriminate|].
  intros E.
  assert (rev = take gitRevisionLength (Stdout r)) as -> by congruence.
  split; [reflexivity | apply length_take; exact H].
Qed.

(** C1. For both strategies: the operation never panics; a stdout shorter
    than 40 bytes makes it return an error (with the empty string); a
    revision returned without error is the first 40 bytes of stdout, so it
    is exactly 40 long.  The older [CheckGitRepoLocal] of git.go, which has
    no error result, returns the empty string or 40 bytes, never a shorter
    piece of the output. *)
Theorem LocalRevision_short_output_is_error
    (git : Tool) (dir defaultBranch : string) :
  let out := Stdout (git (rev_parse dir defaultBranch)) in
  ((exists r, git28.LocalRevision git dir defaultBranch = Returns r) /\
   (exists r, git17.LocalRevision git dir defaultBranch = Returns r)) /\
  (length out < gitRevisionLength ->
   (exists e, git28.LocalRevision git dir defaultBranch
              = Returns ("", Some e)) /\
   (exists e, git17.LocalRevision git dir defaultBranch
              = Returns ("", Some e))) /\
  (forall rev,
     git28.LocalRevision git dir defaultBranch = Returns (rev, nil) \/
     git17.LocalRevision git dir defaultBranch = Returns (rev, nil) ->
     length rev = gitRevisionLength /\ rev = take gitRevisionLength out) /\
  (forall rev,
     vcs.CheckGitRepoLocal git dir defaultBranch = Returns rev ->
     rev = "" \/ length rev = gitRevisionLength).
Proof.
  cbv zeta. rewrite git28_LocalRevision_eq, git17_LocalRevision_eq.
  split; [|split; [|split]].
  - assert (exists r, LocalRevision_result
              (git (rev_parse dir defaultBranch)) = Returns r) as H.
    { unfold LocalRevision_result. destruct (Failure _); [eauto|].
      destruct (_ <? _); eauto. }
    now split.
  - intros H. split; now apply LocalRevision_result_short.
  - intros rev [H|H]; apply LocalRevision_result_ok in H as [-> H];
      now split.
  - intros rev. unfold vcs.CheckGitRepoLocal, Output.
    destruct (Failure _).
    + intros E. injection E as <-. now left.
    + destruct (Nat.leb_spec gitRevisionLength (length (Stdout (git
        (Command ["git"; "rev-parse"; defaultBranch] dir []))))) as [H|H].
      * rewrite slice_to_in_range by exact H.
        intros E. right.
        assert (rev = take gitRevisionLength (Stdout (git
          (Command ["git"; "rev-parse"; defaultBranch] dir []))))
          as -> by congruence.
        apply length_take; exact H.
      * intros E. injection E as <-. now left.
Qed.

Lemma LocalRevision_short_output_is_error_witness :
  (exists e, git28.LocalRevision (prints ("7cafcd8" ++ nl)) "/repo" "master"
             = Returns ("", Some e)) /\
  (exists e, git17.LocalRevision (prints ("7cafcd8" ++ nl)) "/repo" "master"
             = Returns ("", Some e)).
Proof.
  apply (LocalRevision_short_output_is_error
           (prints ("7cafcd8" ++ nl)) "/repo" "master").
  simpl. unfold gitRevisionLength. lia.
Defined.

(** C8 fails on the code: no character of the output is looked at.  With a
    tool that prints forty times the letter z, both strategies return that
    text as the revision. *)
Lemma LocalRevision_returns_non_hex :
  let zs := "zzzzzzzzzzzzzzzzzzzzzzzzzzzzzzzzzzzzzzzz" in
  git28.LocalRevision (prints (zs ++ nl)) "/repo" "master"
    = Returns (zs, nil) /\
  git17.LocalRevision (prints (zs ++ nl)) "/repo" "master"
    = Returns (zs, nil) /\
  length zs = 40 /\ allHex zs = false.
Proof. repeat split. Qed.

(** C8, amended. A revision returned without error is the first 40 bytes of
    stdout, unchanged: its length is 40, and it is made of hexadecimal digits
    exactly when those 40 bytes are. *)
Theorem LocalRevision_is_first_40_bytes
    (git : Tool) (dir defaultBranch rev : string) :
  git28.LocalRevision git dir defaultBranch = Returns (rev, nil) \/
  git17.LocalRevision git dir defaultBranch = Returns (rev, nil) ->
  let out := Stdout (git (rev_parse dir defaultBranch)) in
  length rev = 40 /\
  rev = take 40 out /\
  allHex rev = allHex (take 40 out).
Proof.
  rewrite git28_LocalRevision_eq, git17_LocalRevision_eq.
  intros [H|H]; apply LocalRevision_result_ok in H as [-> H];
    repeat split; exact H.
Qed.

Lemma LocalRevision_is_first_40_bytes_witness :
  let rev := "7cafcd837844e784b526369c9bce262804aebc60" in
  length rev = 40 /\
  rev = take 40 (rev ++ nl) /\
  allHex rev = allHex (take 40 (rev ++ nl)).
Proof.
  apply (LocalRevision_is_first_40_bytes
           (prints ("7cafcd837844e784b526369c9bce262804aebc60" ++ nl))
           "/repo" "master").
  left. reflexivity.
Defined.

(** ** Containment checks *)

Lemma eqb_answers (a b : string) : answers (String.eqb a b, nil) (a = b).
Proof.
  split; intros H.
  - apply String.eqb_eq in H. now rewrite H.
  - apply String.eqb_neq in H. now rewrite H.
Qed.

(** C9. When the tool exits zero, each of the four checks returns true
    exactly when stdout is the expected line ("contains" and a line feed for
    the 2.8 strategy; the line of [git branch] for the 1.7 strategy: the
    branch after "* " or two spaces, or "origin/" and the branch after two
    spaces), and false with no error for any other stdout. *)
Theorem Contains_zero_exit (git : Tool) (dir revision defaultBranch : string) :
  let local28 := git (for_each_ref dir revision
                        ("refs/heads/" ++ defaultBranch)) in
  let remote28 := git (for_each_ref dir revision
                         ("refs/remotes/origin/" ++ defaultBranch)) in
  let local17 := git (branch_contains dir revision defaultBranch) in
  let remote17 := git (branch_r_contains dir revision defaultBranch) in
  (Failure local28 = None ->
   answers (git28.Contains git dir revision defaultBranch)
           (Stdout local28 = "contains" ++ nl)) /\
  (Failure remote28 = None ->
   answers (git28.RemoteContains git dir revision defaultBranch)
           (Stdout remote28 = "contains" ++ nl)) /\
  (Failure local17 = None ->
   answers (git17.Contains git dir revision defaultBranch)
           (Stdout local17 = "* " ++ defaultBranch ++ nl \/
            Stdout local17 = "  " ++ defaultBranch ++ nl)) /\
  (Failure remote17 = None ->
   answers (git17.RemoteContains git dir revision defaultBranch)
           (Stdout remote17 = "  origin/" ++ defaultBranch ++ nl)).
Proof.
  cbv zeta.
  unfold git28.Contains, git28.RemoteContains, git17.Contains,
    git17.RemoteContains, dividedOutput, for_each_ref, branch_contains,
    branch_r_contains.
  split; [|split; [|split]]; intros E; rewrite E.
  - apply eqb_answers.
  - apply eqb_answers.
  - split.
    + intros [H|H]; rewrite H, String.eqb_refl; [reflexivity|].
      now rewrite orb_true_r.
    + intros H.
      destruct (String.eqb_spec (Stdout (git (Command
        ["git"; "branch"; "--contains"; revision; defaultBranch] dir [LANG])))
        ("* " ++ defaultBranch ++ nl)) as [A|A]; [tauto|].
      destruct (String.eqb_spec (Stdout (git (Command
        ["git"; "branch"; "--contains"; revision; defaultBranch] dir [LANG])))
        ("  " ++ defaultBranch ++ nl)) as [B|B]; [tauto|].
      reflexivity.
  - apply eqb_answers.
Qed.

Lemma Contains_zero_exit_witness :
  git28.Contains (prints ("contains" ++ nl)) "/repo" "7cafcd8" "master"
    = (true, nil) /\
  git28.RemoteContains (prints "") "/repo" "7cafcd8" "master" = (false, nil) /\
  git17.Contains (prints ("  master" ++ nl)) "/repo" "7cafcd8" "master"
    = (true, nil) /\
  git17.RemoteContains (prints ("  origin/main" ++ nl)) "/repo" "7cafcd8"
    "master" = (false, nil).
Proof.
  split; [|split; [|split]].
  - apply (Contains_zero_exit (prints ("contains" ++ nl))
             "/repo" "7cafcd8" "master"); reflexivity.
  - apply (Contains_zero_exit (prints "") "/repo" "7cafcd8" "master");
      [reflexivity | discriminate].
  - apply (Contains_zero_exit (prints ("  master" ++ nl))
             "/repo" "7cafcd8" "master"); [reflexivity | now right].
  - apply (Contains_zero_exit (prints ("  origin/main" ++ nl))
             "/repo" "7cafcd8" "master"); [reflexivity | discriminate].
Defined.

(** C4 fails on the code in its second half: stderr is compared by prefix.
    When git adds anything after the message, the exit is non-zero and
    stderr is not exactly the message, and still all four checks return
    false with no error. *)
Lemma Contains_prefix_is_not_an_error :
  let stderr := no_such_commit "7cafcd8" ++ "fatal: bad object" ++ nl in
  let git := fails stderr in
  Failure (git (branch_contains "/repo" "7cafcd8" "master")) <> None /\
  stderr <> no_such_commit "7cafcd8" /\
  git28.Contains git "/repo" "7cafcd8" "master" = (false, nil) /\
  git28.RemoteContains git "/repo" "7cafcd8" "master" = (false, nil) /\
  git17.Contains git "/repo" "7cafcd8" "master" = (false, nil) /\
  git17.RemoteContains git "/repo" "7cafcd8" "master" = (false, nil).
Proof.
  cbv zeta. split; [discriminate|]. split; [discriminate|].
  repeat split.
Qed.

(** C4, amended. When the tool exits non-zero, each of the four checks
    returns false with no error if stderr begins with "error: no such commit
    <rev>" and a line feed (so also when stderr is exactly that), and returns
    the error of the run otherwise. *)
Theorem Contains_nonzero_exit
    (git : Tool) (dir revision defaultBranch : string) (e : ExitError) :
  let check (cmd : Cmd) (answer : bool * option error) :=
    Failure (git cmd) = Some e ->
    (Stderr (git cmd) = no_such_commit revision -> answer = (false, nil)) /\
    (HasPrefix (Stderr (git cmd)) (no_such_commit revision) = true ->
     answer = (false, nil)) /\
    (HasPrefix (Stderr (git cmd)) (no_such_commit revision) = false ->
     answer = (false, Some (ExecError e))) in
  check (for_each_ref dir revision ("refs/heads/" ++ defaultBranch))
        (git28.Contains git dir revision defaultBranch) /\
  check (for_each_ref dir revision ("refs/remotes/origin/" ++ defaultBranch))
        (git28.RemoteContains git dir revision defaultBranch) /\
  check (branch_contains dir revision defaultBranch)
        (git17.Contains git dir revision defaultBranch) /\
  check (branch_r_contains dir revision defaultBranch)
        (git17.RemoteContains git dir revision defaultBranch).
Proof.
  cbv zeta.
  unfold git28.Contains, git28.RemoteContains, git17.Contains,
    git17.RemoteContains, dividedOutput, for_each_ref, branch_contains,
    branch_r_contains, no_such_commit.
  split; [|split; [|split]]; intros E; rewrite E;
    (split; [intros ->; rewrite HasPrefix_refl | split; intros ->]);
    reflexivity.
Qed.

Lemma Contains_nonzero_exit_witness :
  git28.Contains (fails (no_such_commit "7cafcd8")) "/repo" "7cafcd8" "master"
    = (false, nil) /\
  git17.Contains (fails ("fatal: not a git repository" ++ nl)) "/repo"
    "7cafcd8" "master"
    = (false, Some (ExecError {| Error := "exit status 128" |})).
Proof.
  split.
  - destruct (Contains_nonzero_exit (fails (no_such_commit "7cafcd8"))
                "/repo" "7cafcd8" "master" {| Error := "exit status 128" |})
      as (H & _).
    apply H; reflexivity.
  - destruct (Contains_nonzero_exit
                (fails ("fatal: not a git repository" ++ nl))
                "/repo" "7cafcd8" "master" {| Error := "exit status 128" |})
      as (_ & _ & H & _).
    apply H; reflexivity.
Defined.

(** ** No remote *)




(** ** Fallback of the 2.8 strategy *)

(** C7 fails on the code when the fallback itself fails.  Here ls-remote
    succeeds and prints the revision of HEAD and a branch at another
    revision, without any "ref:" line: the parser reports
    [errBranchNotFound] with the revision.  [git28] then runs [git remote
    show origin], which fails, and returns that error; [remoteGit28] guesses
    from the listing, finds no branch at the revision, and returns
    [errBranchNotFound]. *)
Lemma RemoteBranchAndRevision_fallback_can_fail :
  let listing := ls_remote "7cafcd8" [("1f0e3da", "main")] in
  parseGit28LsRemote listing
    = Returns ("", "7cafcd8", Some errBranchNotFound) /\
  git28.RemoteBranchAndRevision
    (lists_only listing ("fatal: unable to access" ++ nl)) "/repo"
    = Returns ("", "", Some (fmt_Errorf
                 "exit status 128: fatal: unable to access")) /\
  remoteGit28.RemoteBranchAndRevision (prints listing) "https://example.org"
    = Returns ("", "", Some errBranchNotFound).
Proof. cbv zeta. split; [|split]; reflexivity. Qed.

(** C7, amended. When ls-remote succeeds and the parser reports
    [errBranchNotFound] with a revision, the operation falls back at call
    time: [git28] to the summary of [git remote show origin], [remoteGit28]
    to the guess from the same listing.  A branch found there is returned
    with the revision already extracted and no error; an error of the
    fallback is returned as the error of the operation. *)
Theorem RemoteBranchAndRevision_falls_back
    (git : Tool) (dir remoteURL branch revision : string) :
  (Failure (git (ls_remote_symref dir "origin")) = None ->
   parseGit28LsRemote (Stdout (git (ls_remote_symref dir "origin")))
     = Returns (branch, revision, Some errBranchNotFound) ->
   git28.RemoteBranchAndRevision git dir =
   match git28.remoteBranch git dir with
   | Returns (found, None) => Returns (found, revision, nil)
   | Returns (_, Some e) => Returns ("", "", Some e)
   | Panics p => Panics p
   end) /\
  (Failure (git (ls_remote_symref "" remoteURL)) = None ->
   parseGit28LsRemote (Stdout (git (ls_remote_symref "" remoteURL)))
     = Returns (branch, revision, Some errBranchNotFound) ->
   remoteGit28.RemoteBranchAndRevision git remoteURL =
   match guessBranch (Stdout (git (ls_remote_symref "" remoteURL))) revision
   with
   | Returns (found, None) => Returns (found, revision, nil)
   | Returns (_, Some e) => Returns ("", "", Some e)
   | Panics p => Panics p
   end).
Proof.
  split; intros E P.
  - unfold git28.RemoteBranchAndRevision, dividedOutput.
    unfold ls_remote_symref in E, P. rewrite E, P. simpl bind.
    destruct (git28.remoteBranch git dir) as [[found [e|]]|p]; reflexivity.
  - unfold remoteGit28.RemoteBranchAndRevision, dividedOutput.
    unfold ls_remote_symref in E, P |- *. rewrite E, P. simpl bind.
    destruct (guessBranch _ revision) as [[found [e|]]|p]; reflexivity.
Qed.

Lemma RemoteBranchAndRevision_falls_back_witness :
  let listing := ls_remote "7cafcd8" [("7cafcd8", "main")] in
  let summary := "* remote origin" ++ nl ++ "  HEAD branch: main" ++ nl
                 ++ "  Remote branch:" ++ nl in
  git28.RemoteBranchAndRevision (lists_and_shows listing summary) "/repo"
    = Returns ("main", "7cafcd8", nil) /\
  remoteGit28.RemoteBranchAndRevision (lists_and_shows listing summary)
    "https://example.org" = Returns ("main", "7cafcd8", nil).
Proof.
  cbv zeta. split.
  - rewrite (proj1 (RemoteBranchAndRevision_falls_back
                      _ "/repo" "https://example.org" "" "7cafcd8"));
      reflexivity.
  - rewrite (proj2 (RemoteBranchAndRevision_falls_back
                      _ "/repo" "https://example.org" "" "7cafcd8"));
      reflexivity.
Defined.

(** ** Branch of HEAD among several *)

Lemma guessBranch_lines_branch_line
    (rev name revision branch : string) (ls : list string) :
  has_byte TAB rev = false ->
  guessBranch_lines (ref_line (branch_ref (rev, name)) :: ls) revision branch
  = guessBranch_lines ls revision (keep_or_take revision branch (rev, name)).
Proof.
  intros H. unfold ref_line, branch_ref, keep_or_take. simpl fst. simpl snd.
  unfold guessBranch_lines; fold guessBranch_lines.
  rewrite SplitN_2_line by exact H. unfold index. simpl nth_error.
  simpl bind. rewrite orb_false_r.
  destruct (String.eqb rev revision); simpl; [|reflexivity].
  destruct (String.eqb branch "master"); reflexivity.
Qed.

Lemma parseGit17LsRemote_lines_branch_line
    (rev name revision branch : string) (ls : list string) :
  has_byte TAB rev = false -> has_byte TAB name = false ->
  parseGit17LsRemote_lines (ref_line (branch_ref (rev, name)) :: ls)
    branch revision
  = parseGit17LsRemote_lines ls
      (keep_or_take revision branch (rev, name)) revision.
Proof.
  intros Hrev Hname. unfold ref_line, branch_ref, keep_or_take.
  simpl fst. simpl snd.
  unfold parseGit17LsRemote_lines; fold parseGit17LsRemote_lines.
  rewrite Split_line; [|exact Hrev|simpl; exact Hname].
  unfold index. simpl nth_error. simpl bind.
  destruct (String.eqb rev revision); simpl; [|reflexivity].
  destruct (String.eqb branch "master"); reflexivity.
Qed.

Lemma guessBranch_lines_HEAD_line
    (rev revision branch : string) (ls : list string) :
  has_byte TAB rev = false ->
  guessBranch_lines (ref_line (rev, "HEAD") :: ls) revision branch
  = guessBranch_lines ls revision branch.
Proof.
  intros H. unfold ref_line. simpl fst. simpl snd.
  unfold guessBranch_lines; fold guessBranch_lines.
  rewrite SplitN_2_line by exact H. unfold index. simpl nth_error.
  simpl bind. now rewrite orb_true_r.
Qed.

(** The line of HEAD sets the revision. *)
Lemma parseGit17LsRemote_lines_HEAD_line
    (rev revision branch : string) (ls : list string) :
  has_byte TAB rev = false ->
  parseGit17LsRemote_lines (ref_line (rev, "HEAD") :: ls) branch revision
  = parseGit17LsRemote_lines ls branch rev.
Proof.
  intros H. unfold ref_line. simpl fst. simpl snd.
  unfold parseGit17LsRemote_lines; fold parseGit17LsRemote_lines.
  rewrite Split_line; [|exact H|reflexivity].
  unfold index. simpl nth_error. reflexivity.
Qed.

Lemma guessBranch_lines_pick
    (revision : string) (branches : list (string * string)) :
  Forall (fun e => has_byte TAB (fst e) = false) branches ->
  forall branch,
    guessBranch_lines (map ref_line (map branch_ref branches)) revision branch
    = guessBranch_lines [] revision (pick revision branches branch).
Proof.
  induction 1 as [|[rev name] branches H _ IH]; intros branch;
    [reflexivity|].
  simpl map. rewrite guessBranch_lines_branch_line by exact H.
  apply IH.
Qed.

Lemma parseGit17LsRemote_lines_pick
    (revision : string) (branches : list (string * string)) :
  Forall (fun e => has_byte TAB (fst e) = false /\
                   has_byte TAB (snd e) = false) branches ->
  forall branch,
    parseGit17LsRemote_lines (map ref_line (map branch_ref branches))
      branch revision
    = parseGit17LsRemote_lines [] (pick revision branches branch) revision.
Proof.
  induction 1 as [|[rev name] branches [Hrev Hname] _ IH]; intros branch;
    [reflexivity|].
  simpl map.
  rewrite parseGit17LsRemote_lines_branch_line by assumption.
  apply IH.
Qed.

(** Once the branch is master, it stays. *)
Lemma pick_master (revision : string) (branches : list (string * string)) :
  pick revision branches "master" = "master".
Proof.
  unfold pick. induction branches as [|e branches IH]; [reflexivity|].
  simpl fold_left. unfold keep_or_take at 2. simpl. rewrite andb_false_r.
  exact IH.
Qed.

(** A branch master at the revision wins, wherever it is in the list. *)
Lemma pick_In_master (revision : string) (branches : list (string * string)) :
  In (revision, "master") branches ->
  forall branch, pick revision branches branch = "master".
Proof.
  unfold pick. induction branches as [|[rev name] branches IH];
    intros HIn branch; [contradiction|].
  simpl fold_left. destruct HIn as [E|HIn]; [|now apply IH].
  injection E as -> ->. unfold keep_or_take at 2. simpl.
  rewrite String.eqb_refl. simpl.
  destruct (String.eqb_spec branch "master") as [->|_]; simpl;
    apply pick_master.
Qed.

(** Lines at other revisions change nothing. *)
Lemma pick_no_match (revision : string) (branches : list (string * string)) :
  Forall (fun e => fst e <> revision) branches ->
  forall branch, pick revision branches branch = branch.
Proof.
  unfold pick. induction 1 as [|e branches H _ IH]; intros branch;
    [reflexivity|].
  simpl fold_left. unfold keep_or_take at 2.
  apply String.eqb_neq in H. rewrite H. simpl. apply IH.
Qed.

(** Without master among the matches, the branch is never master. *)
Lemma pick_not_master (revision : string) (branches : list (string * string)) :
  Forall (fun e => fst e = revision -> snd e <> "master") branches ->
  forall branch, branch <> "master" ->
    pick revision branches branch <> "master".
Proof.
  unfold pick. induction 1 as [|e branches H _ IH]; intros branch Hb;
    [exact Hb|].
  simpl fold_left. apply IH. unfold keep_or_take.
  destruct (String.eqb_spec (fst e) revision) as [E|_]; simpl; [|exact Hb].
  apply String.eqb_neq in Hb. rewrite Hb. simpl. now apply H.
Qed.

Lemma pick_app (revision : string) (l1 l2 : list (string * string))
    (branch : string) :
  pick revision (l1 ++ l2) branch
  = pick revision l2 (pick revision l1 branch).
Proof. unfold pick. apply fold_left_app. Qed.

(** The last match wins when no match is master. *)
Lemma pick_last_match (revision name : string)
    (before after : list (string * string)) :
  Forall (fun e => fst e = revision -> snd e <> "master") before ->
  Forall (fun e => fst e <> revision) after ->
  pick revision (before ++ (revision, name) :: after) "" = name.
Proof.
  intros Hbefore Hafter. rewrite pick_app.
  change (pick revision ((revision, name) :: after)
            (pick revision before ""))
    with (pick revision after
            (keep_or_take revision (pick revision before "")
               (revision, name))).
  rewrite pick_no_match by exact Hafter.
  unfold keep_or_take. simpl fst. simpl snd. rewrite String.eqb_refl.
  assert (pick revision before "" <> "master") as N.
  { apply pick_not_master; [exact Hbefore | discriminate]. }
  apply String.eqb_neq in N. now rewrite N.
Qed.

Lemma ls_remote_lines (revision : string) (branches : list (string * string)) :
  has_byte LF revision = false ->
  Forall (fun e => has_byte LF (fst e) = false /\
                   has_byte LF (snd e) = false) branches ->
  (length (ls_remote revision branches) =? 0) = false /\
  lines (ls_remote revision branches)
  = ref_line (revision, "HEAD") :: map ref_line (map branch_ref branches).
Proof.
  intros Hrev Hall. unfold ls_remote. simpl map. split.
  - apply unlines_length_pos.
  - apply lines_unlines. constructor.
    + now apply line_no_LF.
    + apply Forall_map, Forall_map. eapply Forall_impl; [|exact Hall].
      intros [rev name] [H1 H2]. now apply line_no_LF.
Qed.

Lemma guessBranch_ls_remote
    (revision : string) (branches : list (string * string)) :
  field revision = true ->
  Forall (fun e => field (fst e) = true /\ field (snd e) = true) branches ->
  guessBranch (ls_remote revision branches) revision
  = guessBranch_lines [] revision (pick revision branches "").
Proof.
  intros Hrev Hall.
  destruct (ls_remote_lines revision branches) as [E L].
  { now apply field_no_LF. }
  { eapply Forall_impl; [|exact Hall].
    intros e [H1 H2]. split; now apply field_no_LF. }
  rewrite guessBranch_eq, E, L.
  rewrite guessBranch_lines_HEAD_line by now apply field_no_tab.
  apply guessBranch_lines_pick.
  eapply Forall_impl; [|exact Hall].
  intros e [H1 _]. now apply field_no_tab.
Qed.

Lemma parseGit17LsRemote_ls_remote
    (revision : string) (branches : list (string * string)) :
  field revision = true ->
  Forall (fun e => field (fst e) = true /\ field (snd e) = true) branches ->
  parseGit17LsRemote (ls_remote revision branches)
  = parseGit17LsRemote_lines [] (pick revision branches "") revision.
Proof.
  intros Hrev Hall.
  destruct (ls_remote_lines revision branches) as [E L].
  { now apply field_no_LF. }
  { eapply Forall_impl; [|exact Hall].
    intros e [H1 H2]. split; now apply field_no_LF. }
  rewrite parseGit17LsRemote_eq, E, L.
  rewrite parseGit17LsRemote_lines_HEAD_line by now apply field_no_tab.
  apply parseGit17LsRemote_lines_pick.
  eapply Forall_impl; [|exact Hall].
  intros e [H1 H2]. split; now apply field_no_tab.
Qed.

(** C2. In a listing of ls-remote (the line of HEAD, then the branch lines,
    fields without tab or line feed) where a branch named master is at the
    revision of HEAD, both parsers return master, whatever other branches
    are at that revision and in whatever order the lines come. *)
Theorem master_is_preferred
    (revision : string) (branches : list (string * string)) :
  field revision = true -> revision <> "" ->
  Forall (fun e => field (fst e) = true /\ field (snd e) = true) branches ->
  In (revision, "master") branches ->
  guessBranch (ls_remote revision branches) revision
    = Returns ("master", nil) /\
  parseGit17LsRemote (ls_remote revision branches)
    = Returns ("master", revision, nil).
Proof.
  intros Hrev Hne Hall HIn.
  rewrite guessBranch_ls_remote, parseGit17LsRemote_ls_remote by assumption.
  rewrite pick_In_master by exact HIn. split; [reflexivity|].
  unfold parseGit17LsRemote_lines. simpl String.eqb at 1.
  apply String.eqb_neq in Hne. now rewrite Hne.
Qed.

Lemma master_is_preferred_witness :
  (guessBranch (ls_remote "7cafcd8" [("7cafcd8", "master");
                                     ("7cafcd8", "develop")]) "7cafcd8"
     = Returns ("master", nil) /\
   parseGit17LsRemote (ls_remote "7cafcd8" [("7cafcd8", "master");
                                            ("7cafcd8", "develop")])
     = Returns ("master", "7cafcd8", nil)) /\
  (guessBranch (ls_remote "7cafcd8" [("7cafcd8", "develop");
                                     ("7cafcd8", "master")]) "7cafcd8"
     = Returns ("master", nil) /\
   parseGit17LsRemote (ls_remote "7cafcd8" [("7cafcd8", "develop");
                                            ("7cafcd8", "master")])
     = Returns ("master", "7cafcd8", nil)).
Proof.
  split.
  - apply (master_is_preferred "7cafcd8"
             [("7cafcd8", "master"); ("7cafcd8", "develop")]);
      [reflexivity | discriminate | repeat constructor | now left].
  - apply (master_is_preferred "7cafcd8"
             [("7cafcd8", "develop"); ("7cafcd8", "master")]);
      [reflexivity | discriminate | repeat constructor | right; now left].
Defined.

(** C3 fails on the code: each matching line overwrites the branch found so
    far, so the last match is returned, not the first. *)
Lemma last_match_not_first :
  let out := ls_remote "7cafcd8" [("7cafcd8", "develop"); ("7cafcd8", "main")]
  in
  guessBranch out "7cafcd8" = Returns ("main", nil) /\
  parseGit17LsRemote out = Returns ("main", "7cafcd8", nil).
Proof. cbv zeta. split; reflexivity. Qed.

(** C3, amended. In a listing of ls-remote where several branches are at the
    revision of HEAD and none of them is named master, both parsers return
    the last of them in the output. *)
Theorem last_match_is_returned (revision name : string)
    (before after : list (string * string)) :
  field revision = true -> revision <> "" ->
  field name = true -> name <> "" ->
  Forall (fun e => field (fst e) = true /\ field (snd e) = true)
         (before ++ after) ->
  Forall (fun e => fst e = revision -> snd e <> "master") before ->
  Forall (fun e => fst e <> revision) after ->
  let out := ls_remote revision (before ++ (revision, name) :: after) in
  guessBranch out revision = Returns (name, nil) /\
  parseGit17LsRemote out = Returns (name, revision, nil).
Proof.
  intros Hrev Hne Hname Hnn Hall Hbefore Hafter. cbv zeta.
  assert (Forall (fun e => field (fst e) = true /\ field (snd e) = true)
                 (before ++ (revision, name) :: after)) as Hall'.
  { apply Forall_app in Hall as [H1 H2]. apply Forall_app. split; [exact H1|].
    constructor; [now split | exact H2]. }
  rewrite guessBranch_ls_remote, parseGit17LsRemote_ls_remote by assumption.
  rewrite pick_last_match by assumption.
  unfold guessBranch_lines, parseGit17LsRemote_lines.
  apply String.eqb_neq in Hne, Hnn. now rewrite Hne, Hnn.
Qed.

Lemma last_match_is_returned_witness :
  let out := ls_remote "7cafcd8" [("7cafcd8", "develop"); ("7cafcd8", "main");
                                  ("1f0e3da", "old")] in
  guessBranch out "7cafcd8" = Returns ("main", nil) /\
  parseGit17LsRemote out = Returns ("main", "7cafcd8", nil).
Proof.
  apply (last_match_is_returned "7cafcd8" "main"
           [("7cafcd8", "develop")] [("1f0e3da", "old")]);
    try reflexivity; try discriminate; repeat constructor; discriminate.
Defined.

(** ** The sample listing *)

(** The line of the symbolic reference sets the branch. *)
Lemma parseGit28LsRemote_lines_symref_line
    (name branch revision : string) (ls : list string) :
  has_byte TAB name = false ->
  parseGit28LsRemote_lines
    (ref_line ("ref: refs/heads/" ++ name, "HEAD") :: ls) branch revision
  = if negb (String.eqb name "") && negb (String.eqb revision "")
    then Returns (name, revision, nil)
    else parseGit28LsRemote_lines ls name revision.
Proof.
  intros H. unfold ref_line. cbn [fst snd].
  unfold parseGit28LsRemote_lines; fold parseGit28LsRemote_lines.
  rewrite SplitN_2_line by (simpl; exact H).
  unfold index. cbn [nth_error bind].
  rewrite String.eqb_refl. cbn [negb].
  rewrite HasPrefix_app, slice_from_in_range
    by (rewrite length_app; lia).
  rewrite drop_app. reflexivity.
Qed.

(** The line of HEAD sets the revision. *)
Lemma parseGit28LsRemote_lines_HEAD_line
    (rev branch revision : string) (ls : list string) :
  has_byte TAB rev = false ->
  HasPrefix rev "ref: refs/heads/" = false ->
  parseGit28LsRemote_lines (ref_line (rev, "HEAD") :: ls) branch revision
  = if negb (String.eqb branch "") && negb (String.eqb rev "")
    then Returns (branch, rev, nil)
    else parseGit28LsRemote_lines ls branch rev.
Proof.
  intros H P. unfold ref_line. cbn [fst snd].
  unfold parseGit28LsRemote_lines; fold parseGit28LsRemote_lines.
  rewrite SplitN_2_line by exact H.
  unfold index. cbn [nth_error bind].
  rewrite String.eqb_refl. cbn [negb]. rewrite P. reflexivity.
Qed.

(** C5 fails on the code: in the sample the symbolic reference is in the
    second field of its line, where neither parser looks for it.
    [parseGit28LsRemote] takes the revision from the line of HEAD, finds no
    branch and reports [errBranchNotFound]; [parseGit17LsRemote] cuts the
    eleven bytes of "refs/heads/" off "ref: refs/heads/main" and returns what
    is left as the branch. *)
Lemma sample_listing_gives_no_main :
  let sample := "abc...def" ++ tab ++ "HEAD" ++ nl
                ++ "abc...def" ++ tab ++ "ref: refs/heads/main" ++ nl in
  parseGit28LsRemote sample
    = Returns ("", "abc...def", Some errBranchNotFound) /\
  parseGit17LsRemote sample = Returns ("eads/main", "abc...def", nil).
Proof. cbv zeta. split; reflexivity. Qed.

(** C5, amended. On the listings as git prints them, the parsers yield the
    branch and the revision, with no error: for [parseGit28LsRemote] the
    symbolic reference comes first on its line, before HEAD ("ref:
    refs/heads/main", tab, "HEAD"), and the revision has its own line of
    HEAD; for [parseGit17LsRemote] there is no symbolic reference, the branch
    is the line "refs/heads/main" at the revision of HEAD.  This holds for
    every revision and branch name, the sample being one of them. *)
Theorem sample_listings_parse (rev name : string) :
  field rev = true -> rev <> "" ->
  HasPrefix rev "ref: refs/heads/" = false ->
  field name = true -> name <> "" ->
  parseGit28LsRemote
    (unlines [ref_line ("ref: refs/heads/" ++ name, "HEAD");
              ref_line (rev, "HEAD")])
    = Returns (name, rev, nil) /\
  parseGit17LsRemote
    (unlines [ref_line (rev, "HEAD");
              ref_line (rev, "refs/heads/" ++ name)])
    = Returns (name, rev, nil).
Proof.
  intros Hrev Hne Hnoref Hname Hnn.
  pose proof (field_no_tab _ Hrev) as Trev.
  pose proof (field_no_LF _ Hrev) as Lrev.
  pose proof (field_no_tab _ Hname) as Tname.
  pose proof (field_no_LF _ Hname) as Lname.
  apply String.eqb_neq in Hne, Hnn. split.
  - rewrite parseGit28LsRemote_eq, unlines_length_pos, lines_unlines.
    + rewrite parseGit28LsRemote_lines_symref_line by exact Tname.
      rewrite andb_false_r.
      rewrite parseGit28LsRemote_lines_HEAD_line by assumption.
      now rewrite Hnn, Hne.
    + repeat constructor; apply line_no_LF; simpl; assumption || reflexivity.
  - change (unlines [ref_line (rev, "HEAD");
                     ref_line (rev, "refs/heads/" ++ name)])
      with (ls_remote rev [(rev, name)]).
    rewrite parseGit17LsRemote_ls_remote;
      [|exact Hrev | repeat constructor; assumption].
    unfold pick, keep_or_take. cbn [fold_left fst snd].
    rewrite String.eqb_refl. simpl. now rewrite Hnn, Hne.
Qed.

Lemma sample_listings_parse_witness :
  parseGit28LsRemote ("ref: refs/heads/main" ++ tab ++ "HEAD" ++ nl
                      ++ "abc...def" ++ tab ++ "HEAD" ++ nl)
    = Returns ("main", "abc...def", nil) /\
  parseGit17LsRemote ("abc...def" ++ tab ++ "HEAD" ++ nl
                      ++ "abc...def" ++ tab ++ "refs/heads/main" ++ nl)
    = Returns ("main", "abc...def", nil).
Proof.
  apply (sample_listings_parse "abc...def" "main");
    reflexivity || discriminate.
Defined.

(** ** Lines with and without a tab *)

Lemma parseGit28LsRemote_lines_returns (ls : list string) :
  Forall (fun line => has_byte TAB line = true) ls ->
  forall branch revision,
    returned (parseGit28LsRemote_lines ls branch revision) = true.
Proof.
  induction 1 as [|line ls H _ IH]; intros branch revision.
  - simpl. destruct (_ && _); reflexivity.
  - unfold parseGit28LsRemote_lines; fold parseGit28LsRemote_lines.
    unfold SplitN. destruct (cut_has_byte TAB line H) as (a & b & ->).
    unfold index. cbn [nth_error]. cbn [bind].
    destruct (negb (String.eqb b "HEAD")); [apply IH|].
    destruct (HasPrefix a "ref: refs/heads/") eqn:P.
    + rewrite slice_from_in_range by exact (HasPrefix_length _ _ P).
      cbn [bind]. destruct (_ && _); [reflexivity | apply IH].
    + cbn [bind]. destruct (_ && _); [reflexivity | apply IH].
Qed.

Lemma parseGit17Remote_lines_returns (ls : list string) :
  Forall (fun line => has_byte TAB line = true) ls ->
  returned (parseGit17Remote_lines ls) = true.
Proof.
  induction 1 as [|line ls H _ IH]; [reflexivity|].
  unfold parseGit17Remote_lines; fold parseGit17Remote_lines.
  destruct (Split_has_byte TAB line H) as (a & b & rest & ->).
  unfold index. cbn [nth_error]. cbn [bind].
  destruct (negb (String.eqb a "origin")); [exact IH|].
  destruct (negb (HasSuffix b " (fetch)")); [exact IH|].
  rewrite slice_to_in_range by lia. reflexivity.
Qed.

Lemma parseGit17LsRemote_lines_returns (ls : list string) :
  Forall ref_shaped ls ->
  forall branch revision,
    returned (parseGit17LsRemote_lines ls branch revision) = true.
Proof.
  induction 1 as [|line ls (rev & ref & -> & Hrev & Href & Hshape) _ IH];
    intros branch revision.
  - simpl. destruct (_ || _); reflexivity.
  - unfold parseGit17LsRemote_lines; fold parseGit17LsRemote_lines.
    rewrite Split_line by assumption.
    unfold index. cbn [nth_error]. cbn [bind].
    destruct (String.eqb_spec ref "HEAD") as [_|N]; [apply IH|].
    destruct (_ && _); [|apply IH].
    destruct Hshape as [E|L]; [contradiction|].
    rewrite slice_from_in_range by exact L. cbn [bind]. apply IH.
Qed.

Lemma guessBranch_lines_returns (ls : list string) (revision : string) :
  Forall ref_shaped ls ->
  forall branch, returned (guessBranch_lines ls revision branch) = true.
Proof.
  induction 1 as [|line ls (rev & ref & -> & Hrev & Href & Hshape) _ IH];
    intros branch.
  - simpl. destruct (String.eqb branch ""); reflexivity.
  - unfold guessBranch_lines; fold guessBranch_lines.
    rewrite SplitN_2_line by assumption.
    unfold index. cbn [nth_error]. cbn [bind].
    destruct (String.eqb_spec ref "HEAD") as [_|N].
    + rewrite orb_true_r. apply IH.
    + rewrite orb_false_r. destruct (negb (String.eqb rev revision));
        [apply IH|].
      destruct (negb (String.eqb branch "master")); [|apply IH].
      destruct Hshape as [E|L]; [contradiction|].
      rewrite slice_from_in_range by exact L. cbn [bind]. apply IH.
Qed.

(** C10 fails on the code: the second piece of a line is read without a
    look at how many pieces there are.  On a single line without tab all
    four parsers panic with an index out of range. *)
Lemma parsers_panic_without_tab :
  let out := "7cafcd8" ++ nl in
  parseGit17LsRemote out = Panics (IndexOutOfRange 1 1) /\
  parseGit28LsRemote out = Panics (IndexOutOfRange 1 1) /\
  guessBranch out "7cafcd8" = Panics (IndexOutOfRange 1 1) /\
  parseGit17Remote out = Panics (IndexOutOfRange 1 1).
Proof. cbv zeta. split; [|split; [|split]]; reflexivity. Qed.

(** C10, amended. The parsers return (a result or an error, no panic) on
    every input whose lines all have a tab, for [parseGit28LsRemote] and
    [parseGit17Remote], and whose lines all are a revision, a tab and a
    reference that is HEAD or at least as long as "refs/heads/", for
    [parseGit17LsRemote] and [guessBranch]; the empty input is an error. *)
Theorem parsers_return_on_lines_with_tab (out : string) :
  (Forall (fun line => has_byte TAB line = true) (lines out) ->
   returned (parseGit28LsRemote out) = true /\
   returned (parseGit17Remote out) = true) /\
  (Forall ref_shaped (lines out) ->
   returned (parseGit17LsRemote out) = true /\
   forall revision, returned (guessBranch out revision) = true) /\
  (out = "" ->
   parseGit28LsRemote out
     = Returns ("", "", Some (errors_New "empty ls-remote output")) /\
   parseGit17Remote out = Returns ("", Some (errors_New "no origin remote")) /\
   parseGit17LsRemote out
     = Returns ("", "", Some (errors_New "empty ls-remote output")) /\
   forall revision,
     guessBranch out revision
     = Returns ("", Some (errors_New "empty ls-remote output"))).
Proof.
  split; [|split]; intros H; [| |subst out; now repeat split].
  - rewrite parseGit28LsRemote_eq, parseGit17Remote_eq.
    destruct (length out =? 0); [now split|]. split.
    + now apply parseGit28LsRemote_lines_returns.
    + now apply parseGit17Remote_lines_returns.
  - rewrite parseGit17LsRemote_eq. split.
    + destruct (length out =? 0); [reflexivity|].
      now apply parseGit17LsRemote_lines_returns.
    + intros revision. rewrite guessBranch_eq.
      destruct (length out =? 0); [reflexivity|].
      now apply guessBranch_lines_returns.
Qed.

Lemma parsers_return_on_lines_with_tab_witness :
  let out := "7cafcd8" ++ tab ++ "HEAD" ++ nl
             ++ "7cafcd8" ++ tab ++ "refs/heads/main" ++ nl in
  (returned (parseGit28LsRemote out) = true /\
   returned (parseGit17Remote out) = true) /\
  (returned (parseGit17LsRemote out) = true /\
   forall revision, returned (guessBranch out revision) = true).
Proof.
  cbv zeta. split.
  - apply (proj1 (parsers_return_on_lines_with_tab _)).
    repeat constructor.
  - apply (proj1 (proj2 (parsers_return_on_lines_with_tab _))).
    constructor; [|constructor; [|constructor]].
    + exists "7cafcd8", "HEAD". repeat split. now left.
    + exists "7cafcd8", "refs/heads/main". repeat split. right. simpl. lia.
Defined.

(** * More of the code *)

(** ** Searching in a string *)

Lemma HasPrefix_split (s p : string) :
  HasPrefix s p = true -> s = p ++ drop (length p) s.
Proof.
  revert s. induction p as [|c p IH]; intros [|b s] H; simpl in *;
    try reflexivity; try discriminate.
  apply andb_true_iff in H as [E H]. apply Ascii.eqb_eq in E. subst b.
  f_equal. now apply IH.
Qed.

Lemma drop_add_app (a b : string) (n : nat) :
  drop (length a + n) (a ++ b) = drop n b.
Proof. induction a as [|c a IH]; simpl; [reflexivity | exact IH]. Qed.

Lemma take_length_app (a b : string) : take (length a) (a ++ b) = a.
Proof. induction a as [|c a IH]; simpl; [now destruct b | now rewrite IH]. Qed.

Lemma Index_ge (s sub : string) : (-1 <= Index s sub)%Z.
Proof.
  induction s as [|c s IH]; cbn [Index]; cbv zeta.
  - destruct (HasPrefix "" sub); lia.
  - destruct (HasPrefix (String c s) sub); [lia|].
    destruct (Z.eqb_spec (Index s sub) (-1)); lia.
Qed.

Lemma IndexByte_ge (s : string) (c : ascii) : (-1 <= IndexByte s c)%Z.
Proof.
  induction s as [|b s IH]; simpl; [lia|].
  destruct (Ascii.eqb b c); [lia|].
  destruct (Z.eqb_spec (IndexByte s c) (-1)); lia.
Qed.

Lemma Index_none (s sub : string) :
  Index s sub = (-1)%Z -> forall pre post, s <> pre ++ sub ++ post.
Proof.
  induction s as [|c s IH]; intros H pre post E.
  - simpl in H. destruct (HasPrefix "" sub) eqn:P; [discriminate|].
    destruct pre; [|discriminate]. simpl in E.
    rewrite E, HasPrefix_app in P. discriminate.
  - cbn [Index] in H. cbv zeta in H.
    destruct (HasPrefix (String c s) sub) eqn:P; [discriminate|].
    destruct pre as [|x pre].
    + simpl in E. rewrite E, HasPrefix_app in P. discriminate.
    + injection E as _ E. pose proof (Index_ge s sub).
      destruct (Z.eqb_spec (Index s sub) (-1)) as [N|N]; [|lia].
      exact (IH N pre post E).
Qed.

Lemma Index_found (s sub : string) :
  Index s sub <> (-1)%Z ->
  exists pre post,
    s = pre ++ sub ++ post /\ Index s sub = Z.of_nat (length pre) /\
    forall pre' post', s = pre' ++ sub ++ post' -> length pre <= length pre'.
Proof.
  induction s as [|c s IH]; intros H.
  - simpl in H. destruct (HasPrefix "" sub) eqn:P; [|contradiction].
    exists "", (drop (length sub) ""). simpl in *. rewrite P.
    repeat split; [now apply HasPrefix_split | intros; lia].
  - cbn [Index] in *. cbv zeta in *.
    destruct (HasPrefix (String c s) sub) eqn:P.
    + exists "", (drop (length sub) (String c s)).
      repeat split; [now apply HasPrefix_split | intros; simpl; lia].
    + destruct (Z.eqb_spec (Index s sub) (-1)) as [N|N]; [contradiction|].
      destruct (IH N) as (pre & post & E & I & M).
      exists (String c pre), post. repeat split.
      * simpl. now rewrite <- E.
      * rewrite I. simpl length. lia.
      * intros [|x pre'] post' E'.
        -- simpl in E'. rewrite E', HasPrefix_app in P. discriminate.
        -- injection E' as _ E'. apply M in E'. simpl. lia.
Qed.

Lemma IndexByte_none (s : string) (c : ascii) :
  IndexByte s c = (-1)%Z -> has_byte c s = false.
Proof.
  induction s as [|b s IH]; simpl; [reflexivity|].
  destruct (Ascii.eqb b c); [discriminate|]. pose proof (IndexByte_ge s c).
  destruct (Z.eqb_spec (IndexByte s c) (-1)) as [N|N]; [|lia].
  intros _. now apply IH.
Qed.

Lemma IndexByte_found (s : string) (c : ascii) :
  IndexByte s c <> (-1)%Z ->
  exists a b, s = a ++ String c b /\ has_byte c a = false /\
              IndexByte s c = Z.of_nat (length a).
Proof.
  induction s as [|x s IH]; simpl; [contradiction|].
  destruct (Ascii.eqb_spec x c) as [->|Nx].
  - intros _. exists "", s. now repeat split.
  - destruct (Z.eqb_spec (IndexByte s c) (-1)) as [N|N]; [contradiction|].
    intros _. destruct (IH N) as (a & b & E & Ha & I).
    exists (String x a), b. repeat split.
    + simpl. now rewrite <- E.
    + simpl. apply Ascii.eqb_neq in Nx. now rewrite Nx.
    + rewrite I. simpl length. lia.
Qed.

(** ** The branch of HEAD in the summary of the remote *)

Lemma remoteBranch_same (git : Tool) (dir : string) :
  git17.remoteBranch git dir = git28.remoteBranch git dir.
Proof. reflexivity. Qed.

Lemma slice_from_marker (pre rest : string) :
  slice_from (pre ++ HEAD_branch_marker ++ rest)
    (Z.to_nat (Z.of_nat (length pre) + Z.of_nat (length HEAD_branch_marker)))
  = Returns rest.
Proof.
  rewrite <- Nat2Z.inj_add, Nat2Z.id.
  rewrite slice_from_in_range by (rewrite !length_app; lia).
  rewrite drop_add_app. now rewrite drop_app.
Qed.

Lemma slice_marker_to (pre a post : string) :
  slice (pre ++ HEAD_branch_marker ++ a ++ post)
    (length pre + length HEAD_branch_marker)
    (length a + (length pre + length HEAD_branch_marker))
  = Returns a.
Proof.
  unfold slice.
  destruct (Nat.leb_spec (length a + (length pre + length HEAD_branch_marker))
              (length (pre ++ HEAD_branch_marker ++ a ++ post))) as [_|H];
    [|rewrite !length_app in H; lia].
  destruct (Nat.leb_spec (length pre + length HEAD_branch_marker)
              (length a + (length pre + length HEAD_branch_marker)))
    as [_|H]; [|lia].
  rewrite drop_add_app, drop_app.
  replace (length a + (length pre + length HEAD_branch_marker)
           - (length pre + length HEAD_branch_marker)) with (length a) by lia.
  now rewrite take_length_app.
Qed.

Lemma slice_marker_end (pre rest : string) :
  slice (pre ++ HEAD_branch_marker ++ rest)
    (length pre + length HEAD_branch_marker)
    (length (pre ++ HEAD_branch_marker ++ rest))
  = Returns rest.
Proof.
  pose proof (slice_marker_to pre rest "") as H.
  rewrite app_empty_r in H. rewrite <- H. f_equal.
  rewrite !length_app. lia.
Qed.

(** X1. [remoteBranch] (the same function in both strategies) never panics.
    When the run fails, it returns the error of the run with stderr after
    it.  When the run succeeds, either the summary has no "HEAD branch" line
    and the error says so, or the branch returned is the text after the first
    "HEAD branch: " marker up to the end of that line: it has no line feed,
    and what follows it is nothing or a line feed. *)
Theorem remoteBranch_reads_HEAD_branch (git : Tool) (dir : string) :
  let r := git (remote_show dir) in
  git17.remoteBranch git dir = git28.remoteBranch git dir /\
  (forall e, Failure r = Some e ->
     git28.remoteBranch git dir
     = Returns ("", Some (with_stderr e (Stderr r)))) /\
  (Failure r = None ->
   ((forall pre post, Stdout r <> pre ++ HEAD_branch_marker ++ post) /\
    git28.remoteBranch git dir
    = Returns ("", Some (errors_New "no HEAD branch"))) \/
   (exists pre branch post,
      Stdout r = pre ++ HEAD_branch_marker ++ branch ++ post /\
      (forall pre' post', Stdout r = pre' ++ HEAD_branch_marker ++ post' ->
                          length pre <= length pre') /\
      has_byte LF branch = false /\
      (post = "" \/ HasPrefix post nl = true) /\
      git28.remoteBranch git dir = Returns (branch, nil))).
Proof.
  cbv zeta. split; [reflexivity|]. unfold git28.remoteBranch, dividedOutput.
  change (Command ["git"; "remote"; "show"; "origin"] dir noninteractive)
    with (remote_show dir).
  change (nl ++ "  HEAD branch: ") with HEAD_branch_marker.
  destruct (git (remote_show dir)) as [stdout stderr failure].
  cbn [Stdout Stderr Failure]. split.
  - intros e ->. reflexivity.
  - intros ->.
    destruct (Z.eqb_spec (Index stdout HEAD_branch_marker) (-1)) as [N|N].
    + left. split; [now apply Index_none | reflexivity].
    + right. destruct (Index_found _ _ N) as (pre & rest & E & I & M).
      rewrite I. subst stdout. rewrite slice_from_marker. cbn [bind].
      rewrite <- Nat2Z.inj_add, Nat2Z.id.
      destruct (Z.eqb_spec (IndexByte rest LF) (-1)) as [B|B].
      * exists pre, rest, "". rewrite app_empty_r.
        repeat split; try assumption.
        -- now apply IndexByte_none.
        -- now left.
        -- now rewrite Nat2Z.id, slice_marker_end.
      * destruct (IndexByte_found _ _ B) as (a & b & Er & Ha & Ia).
        exists pre, a, (String LF b). rewrite <- Er.
        repeat split; try assumption.
        -- right. reflexivity.
        -- rewrite Ia, <- Nat2Z.inj_add, Nat2Z.id.
           rewrite Er. now rewrite slice_marker_to.
Qed.

Lemma remoteBranch_reads_HEAD_branch_witness :
  let git := prints ("* remote origin" ++ nl ++ "  HEAD branch: main" ++ nl
                     ++ "  Remote branch:" ++ nl) in
  let r := git (remote_show "/repo") in
  (((forall pre post, Stdout r <> pre ++ HEAD_branch_marker ++ post) /\
    git28.remoteBranch git "/repo"
    = Returns ("", Some (errors_New "no HEAD branch"))) \/
   (exists pre branch post,
      Stdout r = pre ++ HEAD_branch_marker ++ branch ++ post /\
      (forall pre' post', Stdout r = pre' ++ HEAD_branch_marker ++ post' ->
                          length pre <= length pre') /\
      has_byte LF branch = false /\
      (post = "" \/ HasPrefix post nl = true) /\
      git28.remoteBranch git "/repo" = Returns (branch, nil))) /\
  git28.remoteBranch (fails ("fatal: unable to access" ++ nl)) "/repo"
  = Returns ("", Some (fmt_Errorf "exit status 128: fatal: unable to access")).
Proof.
  cbv zeta. split.
  - apply (proj2 (proj2 (remoteBranch_reads_HEAD_branch
      (prints ("* remote origin" ++ nl ++ "  HEAD branch: main" ++ nl
               ++ "  Remote branch:" ++ nl)) "/repo"))).
    reflexivity.
  - apply (proj1 (proj2 (remoteBranch_reads_HEAD_branch
             (fails ("fatal: unable to access" ++ nl)) "/repo"))
             {| Error := "exit status 128" |}).
    reflexivity.
Defined.

(** ** Suffixes *)

Lemma HasSuffix_app (a suffix : string) : HasSuffix (a ++ suffix) suffix = true.
Proof.
  unfold HasSuffix. rewrite length_app.
  replace (length a + length suffix - length suffix) with (length a) by lia.
  rewrite drop_app, String.eqb_refl.
  destruct (Nat.leb_spec (length suffix) (length a + length suffix));
    [reflexivity | lia].
Qed.

Lemma TrimSuffix_app (a suffix : string) : TrimSuffix (a ++ suffix) suffix = a.
Proof.
  unfold TrimSuffix. rewrite HasSuffix_app, length_app.
  replace (length a + length suffix - length suffix) with (length a) by lia.
  apply take_length_app.
Qed.

Lemma take_drop (n : nat) (s : string) : take n s ++ drop n s = s.
Proof.
  revert s. induction n as [|n IH]; intros [|c s]; simpl; try reflexivity.
  now rewrite IH.
Qed.

Lemma TrimSuffix_no_LF (s : string) :
  has_byte LF s = false -> TrimSuffix s nl = s.
Proof.
  intros H. unfold TrimSuffix. destruct (HasSuffix s nl) eqn:E; [|reflexivity].
  unfold HasSuffix in E. apply andb_true_iff in E as [_ E].
  apply String.eqb_eq in E.
  rewrite <- (take_drop (length s - length nl) s), E, has_byte_app in H.
  apply orb_false_iff in H as [_ H]. discriminate.
Qed.

(** X2. [Branch] (both strategies) and [git28.RemoteURL] return stdout of a
    successful run without its final line feed: exactly one line feed is
    removed, and an output with no line feed in it is returned as it is. *)
Theorem one_trailing_newline_is_trimmed (git : Tool) (dir : string) :
  let branch := git (abbrev_ref dir) in
  let url := git (remote_get_url dir) in
  (Failure branch = None ->
   (forall x, Stdout branch = x ++ nl ->
      git28.Branch git dir = (x, nil) /\ git17.Branch git dir = (x, nil)) /\
   (has_byte LF (Stdout branch) = false ->
      git28.Branch git dir = (Stdout branch, nil) /\
      git17.Branch git dir = (Stdout branch, nil))) /\
  (Failure url = None ->
   (forall x, Stdout url = x ++ nl -> git28.RemoteURL git dir = (x, nil)) /\
   (has_byte LF (Stdout url) = false ->
      git28.RemoteURL git dir = (Stdout url, nil))).
Proof.
  cbv zeta.
  unfold git28.Branch, git17.Branch, git28.RemoteURL, Output, dividedOutput,
    abbrev_ref, remote_get_url.
  split; intros ->; split.
  - intros x ->. now rewrite TrimSuffix_app.
  - intros H. now rewrite TrimSuffix_no_LF.
  - intros x ->. now rewrite TrimSuffix_app.
  - intros H. now rewrite TrimSuffix_no_LF.
Qed.

Lemma one_trailing_newline_is_trimmed_witness :
  git28.Branch (prints ("feature" ++ nl ++ nl)) "/repo"
    = ("feature" ++ nl, nil) /\
  git28.RemoteURL (prints "https://example.org/a.git") "/repo"
    = ("https://example.org/a.git", nil).
Proof.
  split.
  - apply (proj1 (proj1 (one_trailing_newline_is_trimmed
             (prints ("feature" ++ nl ++ nl)) "/repo") eq_refl)
             ("feature" ++ nl)).
    reflexivity.
  - apply (proj2 (proj2 (one_trailing_newline_is_trimmed
             (prints "https://example.org/a.git") "/repo") eq_refl)).
    reflexivity.
Defined.

(** ** The URL of origin *)

Lemma lines_of_unlines (ls : list string) :
  ls <> [] ->
  Forall (fun l => has_byte LF l = false) ls ->
  (length (unlines ls) =? 0) = false /\ lines (unlines ls) = ls.
Proof.
  destruct ls as [|l ls]; [contradiction|]. intros _ H. split.
  - apply unlines_length_pos.
  - now apply lines_unlines.
Qed.

Lemma parseGit17Remote_lines_skip
    (others : list (string * string)) (rest : list string) :
  Forall (fun r => has_byte TAB (fst r) = false /\ fst r <> "origin")
         others ->
  parseGit17Remote_lines (map remote_line others ++ rest)
  = parseGit17Remote_lines rest.
Proof.
  induction 1 as [|[name kind] others [Htab Hname] _ IH]; [reflexivity|].
  simpl in Htab, Hname. cbn [map app]. unfold remote_line at 1.
  cbn [fst snd]. unfold parseGit17Remote_lines; fold parseGit17Remote_lines.
  change (name ++ tab ++ kind) with (name ++ String TAB kind).
  rewrite Split_app_sep by exact Htab.
  destruct (Split_not_empty TAB kind) as (p & r & ->).
  unfold index. cbn [nth_error bind].
  apply String.eqb_neq in Hname. rewrite Hname. exact IH.
Qed.

Lemma parseGit17Remote_lines_origin (url : string) (rest : list string) :
  has_byte TAB url = false ->
  parseGit17Remote_lines (remote_line ("origin", url ++ " (fetch)") :: rest)
  = Returns (url, nil).
Proof.
  intros H. unfold remote_line. cbn [fst snd].
  unfold parseGit17Remote_lines; fold parseGit17Remote_lines.
  rewrite Split_line;
    [|reflexivity | rewrite has_byte_app, H; reflexivity].
  unfold index. cbn [nth_error bind].
  rewrite String.eqb_refl, HasSuffix_app. cbn [negb].
  rewrite slice_to_in_range by lia. rewrite length_app.
  replace (length url + length " (fetch)" - length " (fetch)")
    with (length url) by lia.
  now rewrite take_length_app.
Qed.

(** X3. When [git remote -v] lists the fetch line of origin after any
    remotes with other names, [parseGit17Remote] returns its URL, the text
    between the tab and " (fetch)", whatever lines come after it, and
    [git17.RemoteURL] returns that URL with no error. *)
Theorem origin_fetch_URL_is_returned (git : Tool) (dir url : string)
    (before after : list (string * string)) :
  let out := unlines (map remote_line
               (before ++ ("origin", url ++ " (fetch)") :: after)) in
  Forall (fun r => field (fst r) = true /\ has_byte LF (snd r) = false /\
                   fst r <> "origin") before ->
  field url = true ->
  Forall (fun r => has_byte LF (fst r) = false /\
                   has_byte LF (snd r) = false) after ->
  parseGit17Remote out = Returns (url, nil) /\
  (Failure (git (remote_v dir)) = None ->
   Stdout (git (remote_v dir)) = out ->
   git17.RemoteURL git dir = Returns (url, nil)).
Proof.
  cbv zeta. intros Hbefore Hurl Hafter.
  assert (parseGit17Remote (unlines (map remote_line
            (before ++ ("origin", url ++ " (fetch)") :: after)))
          = Returns (url, nil)) as P.
  { destruct (lines_of_unlines (map remote_line
                (before ++ ("origin", url ++ " (fetch)") :: after)))
      as [E L].
    - destruct before; discriminate.
    - apply Forall_map, Forall_app. split; [|constructor].
      + eapply Forall_impl; [|exact Hbefore].
        intros r (F & K & _). apply line_no_LF;
          [now apply field_no_LF | exact K].
      + apply line_no_LF; [reflexivity|]. cbn [snd].
        rewrite has_byte_app, (field_no_LF _ Hurl). reflexivity.
      + eapply Forall_impl; [|exact Hafter].
        intros r (F & K). now apply line_no_LF.
    - rewrite parseGit17Remote_eq, E, L, map_app.
      rewrite parseGit17Remote_lines_skip.
      + cbn [map]. apply parseGit17Remote_lines_origin.
        now apply field_no_tab.
      + eapply Forall_impl; [|exact Hbefore].
        intros r (F & _ & N). split; [now apply field_no_tab | exact N]. }
  split; [exact P|].
  intros E S. unfold git17.RemoteURL, Output. unfold remote_v in E, S.
  rewrite E, S, P. reflexivity.
Qed.

Lemma origin_fetch_URL_is_returned_witness :
  git17.RemoteURL
    (prints (unlines (map remote_line
       [("fork", "https://example.org/fork.git (fetch)");
        ("fork", "https://example.org/fork.git (push)");
        ("origin", "https://example.org/a.git (fetch)");
        ("origin", "https://example.org/a.git (push)")]))) "/repo"
  = Returns ("https://example.org/a.git", nil).
Proof.
  apply (origin_fetch_URL_is_returned _ "/repo" "https://example.org/a.git"
           [("fork", "https://example.org/fork.git (fetch)");
            ("fork", "https://example.org/fork.git (push)")]
           [("origin", "https://example.org/a.git (push)")]);
    try reflexivity.
  - repeat constructor; discriminate.
  - repeat constructor.
Defined.

(** ** What a result looks like *)

Lemma parseGit17LsRemote_lines_shape (ls : list string) :
  forall branch0 revision0 branch revision err,
    parseGit17LsRemote_lines ls branch0 revision0
    = Returns (branch, revision, err) ->
    match err with
    | None => branch <> "" /\ revision <> ""
    | Some _ => branch = "" /\ revision = ""
    end.
Proof.
  induction ls as [|line ls IH]; intros b0 r0 b r err.
  - unfold parseGit17LsRemote_lines, nil.
    destruct (String.eqb_spec b0 ""), (String.eqb_spec r0 "");
      cbn [orb]; intros E; injection E as <- <- <-; auto.
  - unfold parseGit17LsRemote_lines; fold parseGit17LsRemote_lines.
    destruct (index (Split line TAB) 0) as [rev|p]; cbn [bind];
      [|discriminate].
    destruct (index (Split line TAB) 1) as [ref|p]; cbn [bind];
      [|discriminate].
    destruct (String.eqb ref "HEAD"); [apply IH|].
    destruct (_ && _); [|apply IH].
    destruct (slice_from ref _); cbn [bind]; [apply IH | discriminate].
Qed.

Lemma parseGit28LsRemote_lines_shape (ls : list string) :
  forall branch0 revision0 branch revision err,
    parseGit28LsRemote_lines ls branch0 revision0
    = Returns (branch, revision, err) ->
    match err with
    | None => branch <> "" /\ revision <> ""
    | Some e => branch = "" /\ (revision <> "" <-> e = errBranchNotFound)
    end.
Proof.
  induction ls as [|line ls IH]; intros b0 r0 b r err.
  - unfold parseGit28LsRemote_lines, nil.
    destruct (String.eqb_spec b0 ""), (String.eqb_spec r0 "");
      cbn [andb negb]; intros E; injection E as <- <- <-;
      (split; [reflexivity|]); split; intros H;
      congruence || discriminate.
  - unfold parseGit28LsRemote_lines; fold parseGit28LsRemote_lines.
    unfold nil.
    destruct (index (SplitN line TAB 2) 1) as [p1|p]; cbn [bind];
      [|discriminate].
    destruct (negb (String.eqb p1 "HEAD")); [apply IH|].
    destruct (index (SplitN line TAB 2) 0) as [p0|p]; cbn [bind];
      [|discriminate].
    destruct (HasPrefix p0 "ref: refs/heads/").
    + destruct (slice_from p0 _) as [b1|p]; cbn [bind]; [|discriminate].
      destruct (String.eqb_spec b1 ""), (String.eqb_spec r0 "");
        cbn [andb negb]; try apply IH.
      intros E. injection E as <- <- <-. now split.
    + cbn [bind].
      destruct (String.eqb_spec b0 ""), (String.eqb_spec p0 "");
        cbn [andb negb]; try apply IH.
      intros E. injection E as <- <- <-. now split.
Qed.

Lemma guessBranch_lines_shape (ls : list string) (revision : string) :
  forall branch0 branch err,
    guessBranch_lines ls revision branch0 = Returns (branch, err) ->
    match err with
    | None => branch <> ""
    | Some e => branch = "" /\ e = errBranchNotFound
    end.
Proof.
  induction ls as [|line ls IH]; intros b0 b err.
  - unfold guessBranch_lines, nil. destruct (String.eqb_spec b0 "");
      intros E; injection E as <- <-; auto.
  - unfold guessBranch_lines; fold guessBranch_lines.
    destruct (index (SplitN line TAB 2) 0) as [rev|p]; cbn [bind];
      [|discriminate].
    destruct (index (SplitN line TAB 2) 1) as [ref|p]; cbn [bind];
      [|discriminate].
    destruct (_ || _); [apply IH|].
    destruct (negb _); [|apply IH].
    destruct (slice_from ref _); cbn [bind]; [apply IH | discriminate].
Qed.

Lemma parseGit17LsRemote_shape (out branch revision : string)
    (err : option error) :
  parseGit17LsRemote out = Returns (branch, revision, err) ->
  match err with
  | None => branch <> "" /\ revision <> ""
  | Some _ => branch = "" /\ revision = ""
  end.
Proof.
  rewrite parseGit17LsRemote_eq.
  destruct (length out =? 0); [|apply parseGit17LsRemote_lines_shape].
  intros E. injection E as <- <- <-. now split.
Qed.

Lemma parseGit28LsRemote_shape (out branch revision : string)
    (err : option error) :
  parseGit28LsRemote out = Returns (branch, revision, err) ->
  match err with
  | None => branch <> "" /\ revision <> ""
  | Some e => branch = "" /\ (revision <> "" <-> e = errBranchNotFound)
  end.
Proof.
  rewrite parseGit28LsRemote_eq.
  destruct (length out =? 0); [|apply parseGit28LsRemote_lines_shape].
  intros E. injection E as <- <- <-. split; [reflexivity|].
  split; [congruence | discriminate].
Qed.

(** X4. Whatever the input, well formed or not, a parser of the listing that
    returns does so in one of these shapes: without error, the branch and
    the revision are both non-empty; with an error, the branch is empty, and
    so is the revision, except that [parseGit28LsRemote] keeps the revision
    exactly when the error is [errBranchNotFound].  [guessBranch] has no
    other error than [errBranchNotFound] on a non-empty input. *)
Theorem parsers_result_shape (out : string) :
  (forall branch revision err,
     parseGit17LsRemote out = Returns (branch, revision, err) ->
     match err with
     | None => branch <> "" /\ revision <> ""
     | Some _ => branch = "" /\ revision = ""
     end) /\
  (forall branch revision err,
     parseGit28LsRemote out = Returns (branch, revision, err) ->
     match err with
     | None => branch <> "" /\ revision <> ""
     | Some e => branch = "" /\ (revision <> "" <-> e = errBranchNotFound)
     end) /\
  (forall revision branch err,
     guessBranch out revision = Returns (branch, err) ->
     match err with
     | None => branch <> ""
     | Some e => branch = "" /\ (out <> "" -> e = errBranchNotFound)
     end).
Proof.
  split; [|split].
  - intros b r err. apply parseGit17LsRemote_shape.
  - intros b r err. apply parseGit28LsRemote_shape.
  - intros revision b err. rewrite guessBranch_eq.
    destruct (Nat.eqb_spec (length out) 0) as [Z|Z].
    + intros E. injection E as <- <-. split; [reflexivity|].
      destruct out; [congruence | discriminate].
    + intros E. apply guessBranch_lines_shape in E.
      destruct err as [e|]; [|exact E]. destruct E as [-> ->]. now split.
Qed.

Lemma if_elim (A : Type) (P : A -> Prop) (c : bool) (x y : A) :
  P x -> P y -> P (if c then x else y).
Proof. now destruct c. Qed.

(** X5. The four [RemoteBranchAndRevision] operations never return a value
    beside an error: when the error is not nil, branch and revision are both
    empty (also after [parseGit28LsRemote] has handed over a revision with
    [errBranchNotFound] and the fallback failed); and a revision returned
    without error is not empty. *)
Theorem RemoteBranchAndRevision_error_has_no_value
    (git : Tool) (target : string) :
  let shape (result : go (string * string * option error)) :=
    forall branch revision err,
      result = Returns (branch, revision, err) ->
      match err with
      | None => revision <> ""
      | Some _ => branch = "" /\ revision = ""
      end in
  shape (git28.RemoteBranchAndRevision git target) /\
  shape (remoteGit28.RemoteBranchAndRevision git target) /\
  shape (git17.RemoteBranchAndRevision git target) /\
  shape (remoteGit17.RemoteBranchAndRevision git target).
Proof.
  intros shape.
  assert (forall e, shape (Returns ("", "", Some e))) as Fail.
  { intros e b r err E. injection E as <- <- <-. now split. }
  assert (forall p, shape (Panics p)) as Panic.
  { intros p b r err E. discriminate. }
  assert (forall b r, r <> "" -> shape (Returns (b, r, None))) as Good.
  { intros b0 r0 N b r err E. injection E as <- <- <-. exact N. }
  split; [|split; [|split]].
  - unfold git28.RemoteBranchAndRevision, dividedOutput.
    destruct (git (Command ["git"; "ls-remote"; "--symref"; "origin"; "HEAD";
                            "refs/heads/*"] target noninteractive))
      as [stdout stderr [e|]]; cbn [Stdout Stderr Failure].
    { apply (if_elim _ shape); [apply Fail|].
      apply (if_elim _ shape); apply Fail. }
    destruct (parseGit28LsRemote stdout) as [[[b1 r1] e1]|p] eqn:P;
      cbn [bind]; [|apply Panic].
    apply parseGit28LsRemote_shape in P.
    destruct e1 as [e1|]; [|apply Good, P].
    destruct P as [-> P].
    destruct e1 as [| |t|t|e'|e']; try apply Fail.
    destruct (git28.remoteBranch git target) as [[b2 [e2|]]|p];
      cbn [bind]; [apply Fail| |apply Panic].
    apply Good. now apply P.
  - unfold remoteGit28.RemoteBranchAndRevision, dividedOutput.
    destruct (git (Command ["git"; "ls-remote"; "--symref"; target; "HEAD";
                            "refs/heads/*"] "" noninteractive))
      as [stdout stderr [e|]]; cbn [Stdout Stderr Failure].
    { apply (if_elim _ shape); apply Fail. }
    destruct (parseGit28LsRemote stdout) as [[[b1 r1] e1]|p] eqn:P;
      cbn [bind]; [|apply Panic].
    apply parseGit28LsRemote_shape in P.
    destruct e1 as [e1|]; [|apply Good, P].
    destruct P as [-> P].
    destruct e1 as [| |t|t|e'|e']; try apply Fail.
    destruct (guessBranch stdout r1) as [[b2 [e2|]]|p];
      cbn [bind]; [apply Fail| |apply Panic].
    apply Good. now apply P.
  - unfold git17.RemoteBranchAndRevision, dividedOutput.
    destruct (git (Command ["git"; "ls-remote"; "origin"; "HEAD";
                            "refs/heads/*"] target noninteractive))
      as [stdout stderr [e|]]; cbn [Stdout Stderr Failure].
    { apply (if_elim _ shape); apply Fail. }
    destruct (parseGit17LsRemote stdout) as [[[b1 r1] e1]|p] eqn:P;
      cbn [bind]; [|apply Panic].
    apply parseGit17LsRemote_shape in P.
    destruct e1 as [e1|]; [apply Fail|].
    destruct (git17.remoteBranch git target) as [[b2 [e2|]]|p];
      cbn [bind]; [apply Fail| |apply Panic].
    apply Good, P.
  - unfold remoteGit17.RemoteBranchAndRevision, dividedOutput.
    destruct (git (Command ["git"; "ls-remote"; target; "HEAD";
                            "refs/heads/*"] "" noninteractive))
      as [stdout stderr [e|]]; cbn [Stdout Stderr Failure].
    { apply Fail. }
    intros b r err P. apply parseGit17LsRemote_shape in P.
    destruct err; [exact P | apply P].
Qed.

Lemma parsers_result_shape_witness :
  let sample := "abc...def" ++ tab ++ "HEAD" ++ nl
                ++ "abc...def" ++ tab ++ "ref: refs/heads/main" ++ nl in
  "" = "" /\ ("abc...def" <> "" <-> errBranchNotFound = errBranchNotFound).
Proof.
  exact (proj1 (proj2 (parsers_result_shape
    ("abc...def" ++ tab ++ "HEAD" ++ nl
     ++ "abc...def" ++ tab ++ "ref: refs/heads/main" ++ nl)))
    "" "abc...def" (Some errBranchNotFound) eq_refl).
Defined.

Lemma RemoteBranchAndRevision_error_has_no_value_witness :
  let git := lists_only (ls_remote "7cafcd8" [("1f0e3da", "main")])
                        ("fatal: unable to access" ++ nl) in
  git28.RemoteBranchAndRevision git "/repo"
  = Returns ("", "", Some (fmt_Errorf
               "exit status 128: fatal: unable to access")) /\
  ("" = "" /\ "" = "").
Proof.
  cbv zeta. split; [reflexivity|].
  exact (proj1 (RemoteBranchAndRevision_error_has_no_value
    (lists_only (ls_remote "7cafcd8" [("1f0e3da", "main")])
                ("fatal: unable to access" ++ nl)) "/repo")
    "" "" (Some (fmt_Errorf "exit status 128: fatal: unable to access"))
    eq_refl).
Defined.

(** ** Listings of a server without symbolic references *)

Lemma guessBranch_lines_pick_then
    (revision : string) (branches : list (string * string))
    (rest : list string) :
  Forall (fun e => has_byte TAB (fst e) = false) branches ->
  forall branch,
    guessBranch_lines (map ref_line (map branch_ref branches) ++ rest)
      revision branch
    = guessBranch_lines rest revision (pick revision branches branch).
Proof.
  induction 1 as [|[rev name] branches H _ IH]; intros branch;
    [reflexivity|].
  cbn [map app]. rewrite guessBranch_lines_branch_line by exact H.
  apply IH.
Qed.

Lemma parseGit17LsRemote_lines_pick_then
    (revision : string) (branches : list (string * string))
    (rest : list string) :
  Forall (fun e => has_byte TAB (fst e) = false /\
                   has_byte TAB (snd e) = false) branches ->
  forall branch,
    parseGit17LsRemote_lines (map ref_line (map branch_ref branches) ++ rest)
      branch revision
    = parseGit17LsRemote_lines rest (pick revision branches branch) revision.
Proof.
  induction 1 as [|[rev name] branches [Hrev Hname] _ IH]; intros branch;
    [reflexivity|].
  cbn [map app].
  rewrite parseGit17LsRemote_lines_branch_line by assumption.
  apply IH.
Qed.

Lemma parseGit28LsRemote_lines_branch_lines
    (branches : list (string * string)) (rest : list string) :
  Forall (fun e => has_byte TAB (fst e) = false) branches ->
  forall branch revision,
    parseGit28LsRemote_lines (map ref_line (map branch_ref branches) ++ rest)
      branch revision
    = parseGit28LsRemote_lines rest branch revision.
Proof.
  induction 1 as [|[rev name] branches H _ IH]; intros branch revision;
    [reflexivity|].
  cbn [map app]. unfold ref_line at 1, branch_ref at 1. cbn [fst snd].
  unfold parseGit28LsRemote_lines; fold parseGit28LsRemote_lines.
  rewrite SplitN_2_line by exact H. unfold index. cbn [nth_error bind].
  change (String.eqb ("refs/heads/" ++ name) "HEAD") with false.
  cbn [negb]. apply IH.
Qed.

Lemma parseGit28LsRemote_ls_remote
    (revision : string) (branches : list (string * string)) :
  field revision = true -> revision <> "" ->
  HasPrefix revision "ref: refs/heads/" = false ->
  Forall (fun e => field (fst e) = true /\ field (snd e) = true) branches ->
  parseGit28LsRemote (ls_remote revision branches)
  = Returns ("", revision, Some errBranchNotFound).
Proof.
  intros Hrev Hne Hnoref Hall.
  destruct (ls_remote_lines revision branches) as [E L].
  { now apply field_no_LF. }
  { eapply Forall_impl; [|exact Hall].
    intros e [H1 H2]. split; now apply field_no_LF. }
  rewrite parseGit28LsRemote_eq, E, L.
  rewrite parseGit28LsRemote_lines_HEAD_line;
    [|now apply field_no_tab | exact Hnoref].
  cbn [String.eqb negb andb].
  rewrite <- (app_nil_r (map ref_line (map branch_ref branches))).
  rewrite parseGit28LsRemote_lines_branch_lines.
  - unfold parseGit28LsRemote_lines. apply String.eqb_neq in Hne.
    now rewrite Hne.
  - eapply Forall_impl; [|exact Hall].
    intros e [H1 _]. now apply field_no_tab.
Qed.

(** The branch that both guesses return for a listing, if any. *)
Lemma guesses_of_ls_remote
    (revision : string) (branches : list (string * string)) :
  field revision = true -> revision <> "" ->
  Forall (fun e => field (fst e) = true /\ field (snd e) = true) branches ->
  (guessBranch (ls_remote revision branches) revision
   = Returns ("", Some errBranchNotFound) /\
   parseGit17LsRemote (ls_remote revision branches)
   = Returns ("", "", Some (errors_New
       "HEAD branch or revision not found in ls-remote output"))) \/
  (exists found, found <> "" /\
   guessBranch (ls_remote revision branches) revision
   = Returns (found, nil) /\
   parseGit17LsRemote (ls_remote revision branches)
   = Returns (found, revision, nil)).
Proof.
  intros Hrev Hne Hall.
  rewrite guessBranch_ls_remote, parseGit17LsRemote_ls_remote by assumption.
  unfold guessBranch_lines, parseGit17LsRemote_lines.
  apply String.eqb_neq in Hne. rewrite Hne, orb_false_r.
  destruct (String.eqb_spec (pick revision branches "") "") as [_|N].
  - now left.
  - right. now exists (pick revision branches "").
Qed.

(** X6. [guessBranch] "does same guessing logic as parseGit17LsRemote": on
    every listing of ls-remote (the line of HEAD, then the branch lines) the
    two return the same branch without error, or both fail, [guessBranch]
    with [errBranchNotFound]. *)
Theorem guessBranch_agrees_with_parseGit17LsRemote
    (revision : string) (branches : list (string * string)) :
  field revision = true -> revision <> "" ->
  Forall (fun e => field (fst e) = true /\ field (snd e) = true) branches ->
  let out := ls_remote revision branches in
  (forall found,
     guessBranch out revision = Returns (found, nil) <->
     parseGit17LsRemote out = Returns (found, revision, nil)) /\
  (guessBranch out revision = Returns ("", Some errBranchNotFound) <->
   parseGit17LsRemote out
   = Returns ("", "", Some (errors_New
       "HEAD branch or revision not found in ls-remote output"))).
Proof.
  intros Hrev Hne Hall. cbv zeta.
  destruct (guesses_of_ls_remote revision branches Hrev Hne Hall)
    as [[G P]|(found & N & G & P)]; rewrite G, P; unfold nil;
    split; try (intros f); split; intros E;
    try discriminate; try reflexivity; congruence.
Qed.

Lemma guessBranch_agrees_with_parseGit17LsRemote_witness :
  guessBranch (ls_remote "7cafcd8" [("1f0e3da", "old"); ("7cafcd8", "main")])
    "7cafcd8" = Returns ("main", nil).
Proof.
  apply (proj1 (guessBranch_agrees_with_parseGit17LsRemote "7cafcd8"
           [("1f0e3da", "old"); ("7cafcd8", "main")]
           eq_refl ltac:(discriminate) ltac:(repeat constructor))).
  reflexivity.
Defined.

(** X7. When the server has no symbolic reference in its listing,
    [remoteGit28.RemoteBranchAndRevision] gives what the 1.7 strategy gives
    on the same listing: the same branch and revision when
    [remoteGit17.RemoteBranchAndRevision] finds a branch, and
    [errBranchNotFound] when it finds none. *)
Theorem remoteGit28_falls_back_to_the_git17_guess
    (git : Tool) (remoteURL revision : string)
    (branches : list (string * string)) :
  field revision = true -> revision <> "" ->
  HasPrefix revision "ref: refs/heads/" = false ->
  Forall (fun e => field (fst e) = true /\ field (snd e) = true) branches ->
  Failure (git (ls_remote_symref "" remoteURL)) = None ->
  Stdout (git (ls_remote_symref "" remoteURL)) = ls_remote revision branches ->
  Failure (git (ls_remote_plain "" remoteURL)) = None ->
  Stdout (git (ls_remote_plain "" remoteURL)) = ls_remote revision branches ->
  (forall found,
     remoteGit17.RemoteBranchAndRevision git remoteURL
     = Returns (found, revision, nil) ->
     remoteGit28.RemoteBranchAndRevision git remoteURL
     = Returns (found, revision, nil)) /\
  (forall e,
     remoteGit17.RemoteBranchAndRevision git remoteURL
     = Returns ("", "", Some e) ->
     remoteGit28.RemoteBranchAndRevision git remoteURL
     = Returns ("", "", Some errBranchNotFound)).
Proof.
  intros Hrev Hne Hnoref Hall F28 S28 F17 S17.
  unfold remoteGit17.RemoteBranchAndRevision,
    remoteGit28.RemoteBranchAndRevision, dividedOutput.
  unfold ls_remote_symref in F28, S28. unfold ls_remote_plain in F17, S17.
  rewrite F28, S28, F17, S17.
  rewrite parseGit28LsRemote_ls_remote by assumption. cbn [bind].
  destruct (guesses_of_ls_remote revision branches Hrev Hne Hall)
    as [[G P]|(found & N & G & P)]; rewrite G, P; unfold nil; cbn [bind];
    split; intros x E; try discriminate; try reflexivity; congruence.
Qed.

Lemma remoteGit28_falls_back_to_the_git17_guess_witness :
  remoteGit28.RemoteBranchAndRevision
    (prints (ls_remote "7cafcd8" [("1f0e3da", "old"); ("7cafcd8", "main")]))
    "https://example.org/a.git"
  = Returns ("main", "7cafcd8", nil).
Proof.
  apply (proj1 (remoteGit28_falls_back_to_the_git17_guess
           (prints (ls_remote "7cafcd8"
                      [("1f0e3da", "old"); ("7cafcd8", "main")]))
           "https://example.org/a.git" "7cafcd8"
           [("1f0e3da", "old"); ("7cafcd8", "main")]
           eq_refl ltac:(discriminate) eq_refl ltac:(repeat constructor)
           eq_refl eq_refl eq_refl eq_refl)).
  reflexivity.
Defined.

(** ** Listings with the symbolic reference *)

(** X8. When the listing starts with the symbolic reference of HEAD and
    then the revision of HEAD, [parseGit28LsRemote] returns that branch and
    that revision and reads no further: the lines after them do not matter,
    not even a branch named master at the same revision or a line without
    tab.  Both 2.8 operations then return them from this one command. *)
Theorem symref_branch_is_returned
    (git : Tool) (dir remoteURL name rev : string) (rest : list string) :
  field name = true -> name <> "" ->
  field rev = true -> rev <> "" ->
  HasPrefix rev "ref: refs/heads/" = false ->
  Forall (fun line => has_byte LF line = false) rest ->
  let out := unlines (symref_line name :: ref_line (rev, "HEAD") :: rest) in
  parseGit28LsRemote out = Returns (name, rev, nil) /\
  (Failure (git (ls_remote_symref dir "origin")) = None ->
   Stdout (git (ls_remote_symref dir "origin")) = out ->
   git28.RemoteBranchAndRevision git dir = Returns (name, rev, nil)) /\
  (Failure (git (ls_remote_symref "" remoteURL)) = None ->
   Stdout (git (ls_remote_symref "" remoteURL)) = out ->
   remoteGit28.RemoteBranchAndRevision git remoteURL
   = Returns (name, rev, nil)).
Proof.
  intros Hname Hnn Hrev Hne Hnoref Hrest. cbv zeta.
  assert (parseGit28LsRemote
            (unlines (symref_line name :: ref_line (rev, "HEAD") :: rest))
          = Returns (name, rev, nil)) as P.
  { rewrite parseGit28LsRemote_eq, unlines_length_pos, lines_unlines.
    - unfold symref_line.
      rewrite parseGit28LsRemote_lines_symref_line
        by now apply field_no_tab.
      rewrite andb_false_r.
      rewrite parseGit28LsRemote_lines_HEAD_line;
        [|now apply field_no_tab | exact Hnoref].
      apply String.eqb_neq in Hne, Hnn. now rewrite Hnn, Hne.
    - constructor; [|constructor; [|exact Hrest]].
      + apply line_no_LF; [|reflexivity]. cbn [fst].
        rewrite has_byte_app, (field_no_LF _ Hname). reflexivity.
      + apply line_no_LF; [|reflexivity]. now apply field_no_LF. }
  split; [exact P|]. split; intros F S.
  - unfold git28.RemoteBranchAndRevision, dividedOutput.
    unfold ls_remote_symref in F, S. rewrite F, S, P. reflexivity.
  - unfold remoteGit28.RemoteBranchAndRevision, dividedOutput.
    unfold ls_remote_symref in F, S. rewrite F, S, P. reflexivity.
Qed.

Lemma symref_branch_is_returned_witness :
  git28.RemoteBranchAndRevision
    (lists_only
       (unlines [symref_line "main"; ref_line ("7cafcd8", "HEAD");
                 ref_line ("7cafcd8", "refs/heads/master");
                 "a line without tab"])
       ("fatal: unable to access" ++ nl)) "/repo"
  = Returns ("main", "7cafcd8", nil).
Proof.
  apply (proj1 (proj2 (symref_branch_is_returned
           (lists_only
              (unlines [symref_line "main"; ref_line ("7cafcd8", "HEAD");
                        ref_line ("7cafcd8", "refs/heads/master");
                        "a line without tab"])
              ("fatal: unable to access" ++ nl))
           "/repo" "" "main" "7cafcd8"
           [ref_line ("7cafcd8", "refs/heads/master"); "a line without tab"]
           eq_refl ltac:(discriminate) eq_refl ltac:(discriminate) eq_refl
           ltac:(repeat constructor)))); reflexivity.
Defined.

(** ** The 1.7 strategy: revision from the listing, branch from the summary *)

Lemma pick_nonempty (revision : string) (branches : list (string * string)) :
  Forall (fun e => snd e <> "") branches ->
  forall branch,
    branch <> "" \/ Exists (fun e => fst e = revision) branches ->
    pick revision branches branch <> "".
Proof.
  unfold pick. induction 1 as [|[rev name] branches H _ IH];
    intros branch Hb.
  - destruct Hb as [Hb|Hb]; [exact Hb | inversion Hb].
  - cbn [fold_left]. apply IH. unfold keep_or_take. cbn [fst snd] in *.
    destruct (String.eqb_spec rev revision) as [E|E]; cbn [andb].
    + destruct (String.eqb_spec branch "master") as [->|_]; cbn [negb];
        left; [discriminate | exact H].
    + destruct Hb as [Hb|Hb]; [now left|].
      inversion Hb as [? ? M|? ? M]; subst; [contradiction | now right].
Qed.

(** X9. [git17.RemoteBranchAndRevision] takes only the revision from the
    listing, but still fails when the listing has no branch at the revision
    of HEAD: the error of the parser is returned, whatever [git remote show
    origin] would have answered. *)
Theorem git17_listing_without_branch_at_HEAD
    (git : Tool) (dir revision : string) (branches : list (string * string)) :
  field revision = true ->
  Forall (fun e => field (fst e) = true /\ field (snd e) = true) branches ->
  Forall (fun e => fst e <> revision) branches ->
  Failure (git (ls_remote_plain dir "origin")) = None ->
  Stdout (git (ls_remote_plain dir "origin")) = ls_remote revision branches ->
  git17.RemoteBranchAndRevision git dir
  = Returns ("", "", Some (errors_New
      "HEAD branch or revision not found in ls-remote output")).
Proof.
  intros Hrev Hall Hno F S.
  unfold git17.RemoteBranchAndRevision, dividedOutput.
  unfold ls_remote_plain in F, S. rewrite F, S.
  rewrite parseGit17LsRemote_ls_remote by assumption.
  rewrite pick_no_match by exact Hno. reflexivity.
Qed.

Lemma git17_listing_without_branch_at_HEAD_witness :
  git17.RemoteBranchAndRevision
    (lists_and_shows (ls_remote "7cafcd8" [("1f0e3da", "main")])
       ("* remote origin" ++ nl ++ "  HEAD branch: main" ++ nl)) "/repo"
  = Returns ("", "", Some (errors_New
      "HEAD branch or revision not found in ls-remote output")).
Proof.
  apply (git17_listing_without_branch_at_HEAD _ "/repo" "7cafcd8"
           [("1f0e3da", "main")]);
    try reflexivity; repeat constructor; discriminate.
Defined.

(** X10. When the listing has a branch at the revision of HEAD,
    [git17.RemoteBranchAndRevision] returns the revision of the listing with
    the branch that [remoteBranch] reads in the summary of the remote, not
    the branch of the listing; an error of [remoteBranch] is the error of
    the operation. *)
Theorem git17_branch_comes_from_the_summary
    (git : Tool) (dir revision : string) (branches : list (string * string)) :
  field revision = true -> revision <> "" ->
  Forall (fun e => field (fst e) = true /\ field (snd e) = true) branches ->
  Forall (fun e => snd e <> "") branches ->
  Exists (fun e => fst e = revision) branches ->
  Failure (git (ls_remote_plain dir "origin")) = None ->
  Stdout (git (ls_remote_plain dir "origin")) = ls_remote revision branches ->
  git17.RemoteBranchAndRevision git dir =
  match git17.remoteBranch git dir with
  | Returns (found, None) => Returns (found, revision, nil)
  | Returns (_, Some e) => Returns ("", "", Some e)
  | Panics p => Panics p
  end.
Proof.
  intros Hrev Hne Hall Hnames Hmatch F S.
  unfold git17.RemoteBranchAndRevision, dividedOutput.
  unfold ls_remote_plain in F, S. rewrite F, S.
  rewrite parseGit17LsRemote_ls_remote by assumption.
  assert (pick revision branches "" <> "") as N
    by (apply pick_nonempty; [exact Hnames | now right]).
  unfold parseGit17LsRemote_lines.
  apply String.eqb_neq in N, Hne. rewrite N, Hne. cbn [orb bind].
  destruct (git17.remoteBranch git dir) as [[found [e|]]|p]; reflexivity.
Qed.

Lemma git17_branch_comes_from_the_summary_witness :
  git17.RemoteBranchAndRevision
    (lists_and_shows (ls_remote "7cafcd8" [("7cafcd8", "main")])
       ("* remote origin" ++ nl ++ "  HEAD branch: develop" ++ nl)) "/repo"
  = Returns ("develop", "7cafcd8", nil).
Proof.
  rewrite (git17_branch_comes_from_the_summary _ "/repo" "7cafcd8"
             [("7cafcd8", "main")]);
    try reflexivity; try discriminate; repeat constructor; discriminate.
Defined.

(** ** The place of the line of HEAD *)

(** X11. [parseGit17LsRemote] "assumes HEAD comes first": when the line of
    HEAD comes after the branch lines, no branch is matched and the parser
    fails, even with a branch at the revision of HEAD in the listing.
    [guessBranch], which is given the revision, returns the same as for the
    listing with HEAD first. *)
Theorem HEAD_line_must_come_first
    (revision : string) (branches : list (string * string)) :
  field revision = true ->
  Forall (fun e => field (fst e) = true /\ field (snd e) = true) branches ->
  Forall (fun e => fst e <> "") branches ->
  let out := unlines (map ref_line (map branch_ref branches)
                      ++ [ref_line (revision, "HEAD")]) in
  parseGit17LsRemote out
  = Returns ("", "", Some (errors_New
      "HEAD branch or revision not found in ls-remote output")) /\
  guessBranch out revision
  = guessBranch (ls_remote revision branches) revision.
Proof.
  intros Hrev Hall Hrevs. cbv zeta.
  assert (Forall (fun e => has_byte TAB (fst e) = false /\
                           has_byte TAB (snd e) = false) branches) as Htabs.
  { eapply Forall_impl; [|exact Hall].
    intros e [H1 H2]. split; now apply field_no_tab. }
  destruct (lines_of_unlines (map ref_line (map branch_ref branches)
                              ++ [ref_line (revision, "HEAD")])) as [E L].
  { destruct (map ref_line (map branch_ref branches)); discriminate. }
  { apply Forall_app. split.
    - apply Forall_map, Forall_map. eapply Forall_impl; [|exact Hall].
      intros [rev name] [H1 H2]. apply line_no_LF; [now apply field_no_LF|].
      cbn [snd]. now apply field_no_LF in H2.
    - constructor; [|constructor].
      apply line_no_LF; [now apply field_no_LF | reflexivity]. }
  split.
  - rewrite parseGit17LsRemote_eq, E, L.
    rewrite parseGit17LsRemote_lines_pick_then by exact Htabs.
    rewrite pick_no_match by exact Hrevs.
    rewrite parseGit17LsRemote_lines_HEAD_line by now apply field_no_tab.
    reflexivity.
  - rewrite guessBranch_eq, E, L.
    rewrite guessBranch_lines_pick_then.
    + rewrite guessBranch_lines_HEAD_line by now apply field_no_tab.
      now rewrite guessBranch_ls_remote.
    + eapply Forall_impl; [|exact Htabs]. now intros e [H _].
Qed.

Lemma HEAD_line_must_come_first_witness :
  let out := unlines [ref_line ("7cafcd8", "refs/heads/main");
                      ref_line ("7cafcd8", "HEAD")] in
  parseGit17LsRemote out
  = Returns ("", "", Some (errors_New
      "HEAD branch or revision not found in ls-remote output")) /\
  guessBranch out "7cafcd8"
  = guessBranch (ls_remote "7cafcd8" [("7cafcd8", "main")]) "7cafcd8".
Proof.
  apply (HEAD_line_must_come_first "7cafcd8" [("7cafcd8", "main")]);
    try reflexivity; repeat constructor; discriminate.
Defined.

(** ** How a failed listing is reported *)

Lemma HasPrefix_first (s p q : string) (a b : ascii) :
  HasPrefix s (String a p) = true -> HasPrefix s (String b q) = true -> a = b.
Proof.
  destruct s as [|c s]; cbn [HasPrefix]; [discriminate|].
  intros A B. apply andb_true_iff in A as [A _], B as [B _].
  apply Ascii.eqb_eq in A, B. congruence.
Qed.

(** X12. A listing that fails with a stderr beginning "remote: Repository
    not found." is reported as a [NotFoundError] by the two operations of the
    2.8 strategy, and as the plain error of the run, with stderr after it,
    by the two of the 1.7 strategy, which do not tell this failure from any
    other. *)
Theorem repository_not_found_is_told_apart_by_git28_only
    (git : Tool) (target : string) (e : ExitError) :
  let reported (cmd : Cmd) (result : go (string * string * option error))
               (wrap : error -> error) :=
    Failure (git cmd) = Some e ->
    HasPrefix (Stderr (git cmd)) not_found = true ->
    result = Returns ("", "", Some (wrap (with_stderr e (Stderr (git cmd)))))
  in
  reported (ls_remote_symref target "origin")
           (git28.RemoteBranchAndRevision git target) NotFoundError /\
  reported (ls_remote_symref "" target)
           (remoteGit28.RemoteBranchAndRevision git target) NotFoundError /\
  reported (ls_remote_plain target "origin")
           (git17.RemoteBranchAndRevision git target) (fun err => err) /\
  reported (ls_remote_plain "" target)
           (remoteGit17.RemoteBranchAndRevision git target) (fun err => err).
Proof.
  cbv zeta.
  assert (forall stderr, HasPrefix stderr not_found = true ->
                         HasPrefix stderr not_a_repository = false) as Other.
  { intros stderr H.
    destruct (HasPrefix stderr not_a_repository) eqn:N; [|reflexivity].
    pose proof (HasPrefix_first _ _ _ _ _ N H). discriminate. }
  split; [|split; [|split]]; intros F H.
  - pose proof (Other _ H) as N.
    unfold git28.RemoteBranchAndRevision, dividedOutput.
    unfold ls_remote_symref, not_found, not_a_repository in F, H, N |- *.
    rewrite F, N, H. reflexivity.
  - unfold remoteGit28.RemoteBranchAndRevision, dividedOutput.
    unfold ls_remote_symref, not_found in F, H |- *.
    rewrite F, H. reflexivity.
  - pose proof (Other _ H) as N.
    unfold git17.RemoteBranchAndRevision, dividedOutput.
    unfold ls_remote_plain, not_a_repository in F, N |- *.
    rewrite F, N. reflexivity.
  - unfold remoteGit17.RemoteBranchAndRevision, dividedOutput.
    unfold ls_remote_plain in F |- *. rewrite F. reflexivity.
Qed.

Lemma repository_not_found_is_told_apart_by_git28_only_witness :
  let stderr := not_found ++ "fatal: repository not found" ++ nl in
  git28.RemoteBranchAndRevision (fails stderr) "/repo"
  = Returns ("", "", Some (NotFoundError (fmt_Errorf
      ("exit status 128: " ++ not_found ++ "fatal: repository not found"))))
  /\
  git17.RemoteBranchAndRevision (fails stderr) "/repo"
  = Returns ("", "", Some (fmt_Errorf
      ("exit status 128: " ++ not_found ++ "fatal: repository not found"))).
Proof.
  cbv zeta. split.
  - apply (proj1 (repository_not_found_is_told_apart_by_git28_only
             (fails (not_found ++ "fatal: repository not found" ++ nl))
             "/repo" {| Error := "exit status 128" |})); reflexivity.
  - apply (proj1 (proj2 (proj2
             (repository_not_found_is_told_apart_by_git28_only
                (fails (not_found ++ "fatal: repository not found" ++ nl))
                "/repo" {| Error := "exit status 128" |})))); reflexivity.
Defined.

(** ** Package vcs: the revisions of the default branch *)

Lemma app_assoc_string (a b c : string) : (a ++ b) ++ c = a ++ (b ++ c).
Proof. induction a as [|x a IH]; simpl; [reflexivity | now rewrite IH]. Qed.

Lemma slice_to_first (rev rest : string) :
  length rev = gitRevisionLength ->
  (if gitRevisionLength <=? length (rev ++ rest)
   then slice_to (rev ++ rest) gitRevisionLength else Returns "")
  = Returns rev.
Proof.
  intros H. rewrite length_app.
  destruct (Nat.leb_spec gitRevisionLength (length rev + length rest));
    [|lia].
  rewrite slice_to_in_range by (rewrite length_app; lia).
  rewrite <- H. now rewrite take_length_app.
Qed.

(** X13. [GetLocalRev] and [GetRemoteRev] of package vcs ask for master
    and return the first 40 bytes of what git prints: for a revision of 40
    bytes, the local one from "<rev>" and a line feed, the remote one from
    the line "<rev>", tab, reference.  A failed command, or a remote without
    that branch (nothing printed), gives the empty string. *)
Theorem vcs_revisions_of_master (git : Tool) (this : vcs.gitVcs) :
  let local := git (vcs_rev_parse (vcs.rootPath this) "master") in
  let remote := git (ls_remote_heads (vcs.rootPath this) "master") in
  (forall rev, length rev = gitRevisionLength ->
     (Failure local = None -> Stdout local = rev ++ nl ->
      vcs.GetLocalRev git this = Returns rev) /\
     (forall ref, Failure remote = None ->
        Stdout remote = ref_line (rev, ref) ++ nl ->
        vcs.GetRemoteRev git this = Returns rev)) /\
  (Failure local <> None -> vcs.GetLocalRev git this = Returns "") /\
  (Failure remote <> None \/ Stdout remote = "" ->
   vcs.GetRemoteRev git this = Returns "").
Proof.
  cbv zeta.
  unfold vcs.GetLocalRev, vcs.GetRemoteRev, vcs.GetDefaultBranch,
    vcs.CheckGitRepoLocal, vcs.CheckGitRepoRemote, Output, vcs_rev_parse,
    ls_remote_heads.
  split; [|split].
  - intros rev Hlen. split.
    + intros -> ->. now apply slice_to_first.
    + intros ref -> ->. unfold ref_line. cbn [fst snd].
      rewrite app_assoc_string. now apply slice_to_first.
  - destruct (Failure _); [reflexivity | congruence].
  - intros [H|H].
    + destruct (Failure _); [reflexivity | congruence].
    + rewrite H. destruct (Failure _); reflexivity.
Qed.

Lemma vcs_revisions_of_master_witness :
  let rev := "7cafcd837844e784b526369c9bce262804aebc60" in
  let git := answers_by_verb (rev ++ nl)
               (ref_line (rev, "refs/heads/master") ++ nl) "" in
  vcs.GetLocalRev git {| vcs.rootPath := "/repo" |} = Returns rev /\
  vcs.GetRemoteRev git {| vcs.rootPath := "/repo" |} = Returns rev.
Proof.
  cbv zeta.
  destruct (proj1 (vcs_revisions_of_master
    (answers_by_verb ("7cafcd837844e784b526369c9bce262804aebc60" ++ nl)
       (ref_line ("7cafcd837844e784b526369c9bce262804aebc60",
                  "refs/heads/master") ++ nl) "")
    {| vcs.rootPath := "/repo" |})
    "7cafcd837844e784b526369c9bce262804aebc60" eq_refl) as [L R].
  split; [apply L | apply (R "refs/heads/master")]; reflexivity.
Defined.

(** ** Origin without a fetch line *)

Lemma HasSuffix_split (s suffix : string) :
  HasSuffix s suffix = true -> exists a, s = a ++ suffix.
Proof.
  unfold HasSuffix. intros H. apply andb_true_iff in H as [_ H].
  apply String.eqb_eq in H. exists (take (length s - length suffix) s).
  rewrite <- H at 2. now rewrite take_drop.
Qed.

Lemma parseGit17Remote_lines_no_fetch (remotes : list (string * string)) :
  Forall (fun r => has_byte TAB (fst r) = false /\
                   has_byte TAB (snd r) = false /\
                   (fst r <> "origin" \/
                    forall url, snd r <> url ++ " (fetch)")) remotes ->
  parseGit17Remote_lines (map remote_line remotes)
  = Returns ("", Some (errors_New "no origin remote")).
Proof.
  induction 1 as [|[name kind] remotes (Hname & Hkind & Hskip) _ IH];
    [reflexivity|].
  cbn [fst snd] in *. cbn [map]. unfold remote_line at 1. cbn [fst snd].
  unfold parseGit17Remote_lines; fold parseGit17Remote_lines.
  rewrite Split_line by assumption.
  unfold index. cbn [nth_error bind].
  destruct (String.eqb_spec name "origin") as [->|N]; cbn [negb];
    [|exact IH].
  destruct (HasSuffix kind " (fetch)") eqn:S; cbn [negb]; [|exact IH].
  destruct Hskip as [Hskip|Hskip]; [contradiction|].
  destruct (HasSuffix_split _ _ S) as [url E]. now apply Hskip in E.
Qed.

(** X14. Only the fetch line of origin counts for [git17.RemoteURL]: when
    every line of [git remote -v] is for another name or does not end with
    " (fetch)", for instance when origin has its push line only, the result
    is [ErrNoRemote]. *)
Theorem origin_without_fetch_line_is_no_remote
    (git : Tool) (dir : string) (remotes : list (string * string)) :
  Forall (fun r => field (fst r) = true /\ field (snd r) = true /\
                   (fst r <> "origin" \/
                    forall url, snd r <> url ++ " (fetch)")) remotes ->
  Failure (git (remote_v dir)) = None ->
  Stdout (git (remote_v dir)) = unlines (map remote_line remotes) ->
  git17.RemoteURL git dir = Returns ("", Some ErrNoRemote).
Proof.
  intros H F S. unfold git17.RemoteURL, Output.
  unfold remote_v in F, S. rewrite F, S, parseGit17Remote_eq.
  destruct remotes as [|r remotes]; [reflexivity|].
  destruct (lines_of_unlines (map remote_line (r :: remotes))) as [E L].
  - discriminate.
  - apply Forall_map. eapply Forall_impl; [|exact H].
    intros a (A & B & _). apply line_no_LF; now apply field_no_LF.
  - rewrite E, L, parseGit17Remote_lines_no_fetch; [reflexivity|].
    eapply Forall_impl; [|exact H].
    intros a (A & B & C). repeat split; try now apply field_no_tab.
    exact C.
Qed.

Lemma origin_without_fetch_line_is_no_remote_witness :
  git17.RemoteURL
    (prints (unlines (map remote_line
       [("origin", "https://example.org/a.git (push)")]))) "/repo"
  = Returns ("", Some ErrNoRemote).
Proof.
  apply (origin_without_fetch_line_is_no_remote _ "/repo"
           [("origin", "https://example.org/a.git (push)")]);
    try reflexivity.
  constructor; [|constructor]. repeat split. right. intros url E.
  pose proof (HasSuffix_app url " (fetch)") as H.
  cbn [snd] in E. rewrite <- E in H. discriminate H.
Defined.
